(** * youtube-data-analysis: the helpers of [utils.py]

    A shallow embedding of the four functions of [utils.py]
    ([get_channel_id_by_name], [get_channel_stats], [get_video_ids],
    [get_video_details]) and the properties of their pagination, batching,
    field defaulting and fault handling.

    The Python values that flow through the functions are decoded JSON
    documents; dictionaries keep their insertion order, which decides the
    column order of the tables built from them, so they are association
    lists.  The API client [youtube] is an arbitrary state-passing function;
    every request it executes is recorded in a log with its outcome. *)

From Stdlib Require Import List String Ascii Arith PeanoNat Lia Bool ZArith.
From Stdlib Require Import DecimalString.
Import ListNotations.
Open Scope string_scope.

Set Implicit Arguments.
Set Warnings "-register-all".

(** ** Python values *)

Inductive pyval : Type :=
| PNone
| PBool (b : bool)
| PInt (z : Z)
| PNaN
| PStr (s : string)
| PList (l : list pyval)
| PDict (d : list (string * pyval)).

(** A dictionary with insertion order. *)
Definition dict := list (string * pyval).

Fixpoint dict_lookup (k : string) (d : dict) : option pyval :=
  match d with
  | [] => None
  | (k', v) :: d' => if String.eqb k k' then Some v else dict_lookup k d'
  end.

(** [d[k] = v]: an existing key keeps its position, a new key goes last. *)
Fixpoint dict_set (k : string) (v : pyval) (d : dict) : dict :=
  match d with
  | [] => [(k, v)]
  | (k', v') :: d' =>
      if String.eqb k k' then (k', v) :: d' else (k', v') :: dict_set k v d'
  end.

Definition dict_keys (d : dict) : list string := map fst d.

(** ** Exceptions *)

Inductive exn : Type :=
| HttpError (status : Z) (content : string)
| KeyError (key : string)
| TypeError (msg : string)
| AttributeError (msg : string)
| NameError (name : string)
| ValueError (msg : string)
| OtherException (msg : string)
| KeyboardInterrupt.

Inductive result (A : Type) : Type :=
| Ok (a : A)
| Raise (e : exn).

Arguments Ok {A} a.
Arguments Raise {A} e.

Definition rbind {A B} (r : result A) (k : A -> result B) : result B :=
  match r with
  | Ok a => k a
  | Raise e => Raise e
  end.

(** [isinstance(e, Exception)]: everything but [KeyboardInterrupt], which
    derives from [BaseException] only. *)
Definition isinstance_Exception (e : exn) : bool :=
  match e with
  | KeyboardInterrupt => false
  | _ => true
  end.

Definition exn_str (e : exn) : string :=
  match e with
  | HttpError _ content => content
  | KeyError k => "'" ++ k ++ "'"
  | TypeError m | AttributeError m | ValueError m | OtherException m => m
  | NameError n => "name '" ++ n ++ "' is not defined"
  | KeyboardInterrupt => ""
  end.

(** ** Python primitives on values *)

(** [obj[key]] with a string key. *)
Definition py_getitem (obj : pyval) (key : string) : result pyval :=
  match obj with
  | PDict d =>
      match dict_lookup key d with
      | Some v => Ok v
      | None => Raise (KeyError key)
      end
  | PList _ => Raise (TypeError "list indices must be integers or slices, not str")
  | PStr _ => Raise (TypeError "string indices must be integers, not 'str'")
  | _ => Raise (TypeError "object is not subscriptable")
  end.

(** [obj.get(key, default)]. *)
Definition py_get (obj : pyval) (key : string) (default : pyval) : result pyval :=
  match obj with
  | PDict d =>
      match dict_lookup key d with
      | Some v => Ok v
      | None => Ok default
      end
  | _ => Raise (AttributeError "object has no attribute 'get'")
  end.

(** The elements a [for] loop visits. *)
Definition py_iter (obj : pyval) : result (list pyval) :=
  match obj with
  | PList l => Ok l
  | PDict d => Ok (map (fun kv => PStr (fst kv)) d)
  | PStr s => Ok (map (fun c => PStr (String c EmptyString)) (list_ascii_of_string s))
  | _ => Raise (TypeError "object is not iterable")
  end.

(** [a == 'literal']. *)
Definition py_eq_str (a : pyval) (s : string) : bool :=
  match a with
  | PStr s' => String.eqb s' s
  | _ => false
  end.

(** [xs[i:j]] for [0 <= i <= j]. *)
Definition py_slice {A} (xs : list A) (i j : nat) : list A :=
  firstn (j - i) (skipn i xs).

(** [range(start, stop, step)] for a positive step. *)
Fixpoint range_from (fuel start stop step : nat) : list nat :=
  match fuel with
  | O => []
  | S fuel' =>
      if Nat.ltb start stop then start :: range_from fuel' (start + step) stop step
      else []
  end.

Definition py_range (start stop step : nat) : list nat :=
  range_from stop start stop step.

(** [sep.join(xs)]. *)
Definition py_join (sep : string) (xs : list string) : string :=
  String.concat sep xs.

(** ** pandas *)

Record DataFrame : Type := mkDataFrame {
  df_columns : list string;
  df_rows : list (list pyval)
}.

Fixpoint add_columns (cols : list string) (keys : list string) : list string :=
  match keys with
  | [] => cols
  | k :: keys' =>
      if existsb (String.eqb k) cols then add_columns cols keys'
      else add_columns (cols ++ [k]) keys'
  end.

(** [pd.DataFrame(records)] for a list of dictionaries: the columns are the
    keys in order of first appearance, one row per dictionary, [NaN] where a
    dictionary lacks a column.  The cells are the values of the records as
    they are handed over: pandas goes on to infer a type per column and may
    convert them ([None] to [NaN], integers to floats), which is not
    modelled.  The properties below use the columns and the number of rows
    only. *)
Definition pd_DataFrame (records : list dict) : DataFrame :=
  let cols := fold_left (fun cols r => add_columns cols (dict_keys r)) records [] in
  {| df_columns := cols;
     df_rows := map (fun r => map (fun c => match dict_lookup c r with
                                           | Some v => v
                                           | None => PNaN
                                           end) cols) records |}.

(** ** The API client

    [youtube.<resource>().list(...)] builds a request; [.execute()] sends it.
    The client is any function from a request and the remote state to a
    response or a fault and the next remote state. *)

Inductive request : Type :=
| SearchList (q part : string) (maxResults : Z) (type : string)
| ChannelsList (part id : string)
| PlaylistItemsList (part playlistId : string) (maxResults : Z)
                    (pageToken : option pyval)
| VideosList (part id : string).

Definition client (St : Type) : Type := request -> St -> result pyval * St.

(** What a run can observe and change: the remote state, the requests sent
    so far with their outcomes (oldest first), and the lines printed. *)
Record world (St : Type) : Type := mkWorld {
  remote : St;
  calls : list (request * result pyval);
  stdout : list string
}.

Definition init {St} (s : St) : world St :=
  {| remote := s; calls := []; stdout := [] |}.

(** State and exceptions. *)
Definition M (St A : Type) : Type := world St -> result A * world St.

Definition ret {St A} (a : A) : M St A := fun w => (Ok a, w).

Definition raise {St A} (e : exn) : M St A := fun w => (Raise e, w).

Definition bind {St A B} (m : M St A) (k : A -> M St B) : M St B :=
  fun w =>
    match m w with
    | (Ok a, w') => k a w'
    | (Raise e, w') => (Raise e, w')
    end.

Definition lift {St A} (r : result A) : M St A := fun w => (r, w).

Definition execute {St} (youtube : client St) (req : request) : M St pyval :=
  fun w =>
    let (r, s') := youtube req (remote w) in
    (r, {| remote := s'; calls := calls w ++ [(req, r)]; stdout := stdout w |}).

Definition print {St} (line : string) : M St unit :=
  fun w =>
    (Ok tt, {| remote := remote w; calls := calls w; stdout := stdout w ++ [line] |}).

Declare Scope py_scope.
Delimit Scope py_scope with py.
Notation "'let?' x ':=' e 'in' k" := (rbind e (fun x => k))
  (at level 10, x name, e at level 100, k at level 200) : py_scope.
Notation "x <- m ;; k" := (bind m (fun x => k))
  (at level 61, m at next level, right associativity) : py_scope.
Open Scope py_scope.

(** ** Names visible in [utils.py]

    The module imports [pandas] as [pd] and defines its four functions; any
    other name resolves in the builtins. *)

Definition module_globals : list string :=
  ["pd"; "get_channel_id_by_name"; "get_channel_stats"; "get_video_ids";
   "get_video_details"].

Definition builtins : list string :=
  ["Exception"; "KeyError"; "TypeError"; "AttributeError"; "NameError";
   "ValueError"; "KeyboardInterrupt"; "print"; "range"; "len"; "None"].

Definition name_bound (globals : list string) (name : string) : bool :=
  existsb (String.eqb name) (globals ++ builtins).

Definition newline : string := String (ascii_of_nat 10) EmptyString.

Definition str_of_Z (z : Z) : string :=
  DecimalString.NilZero.string_of_int (Z.to_int z).

Definition playlist_request (playlist_id : string) (pageToken : option pyval)
  : request :=
  PlaylistItemsList "snippet, contentDetails" playlist_id 50 pageToken.

Section Operations.

Context {St : Type}.
Variable youtube : client St.

(** *** [get_channel_id_by_name] *)

(** The [for] loop of the [try] block: [Some] is the early [return]. *)
Fixpoint first_channel (items : list pyval) : result (option (pyval * pyval)) :=
  match items with
  | [] => Ok None
  | search_result :: rest =>
      let? id := py_getitem search_result "id" in
      let? kind := py_getitem id "kind" in
      if py_eq_str kind "youtube#channel" then
        let? id' := py_getitem search_result "id" in
        let? channelId := py_getitem id' "channelId" in
        let? snippet := py_getitem search_result "snippet" in
        let? title := py_getitem snippet "title" in
        Ok (Some (channelId, title))
      else first_channel rest
  end.

Definition search_channel (channel_name : string) : M St (option (pyval * pyval)) :=
  search_response <- execute youtube
                       (SearchList channel_name "id,snippet" 1 "channel") ;;
  items <- lift (let? items := py_get search_response "items" (PList []) in
                 py_iter items) ;;
  lift (first_channel items).

(** The [except] clauses, tried in order on an exception [e] of the [try]
    block.  Matching a clause evaluates its class expression first: the
    name [HttpError] is looked up in [globals]. *)
Definition except_clauses (globals : list string) (e : exn) : M St unit :=
  if name_bound globals "HttpError" then
    match e with
    | HttpError status content =>
        print ("An HTTP error " ++ str_of_Z status ++ " occurred:" ++ newline
               ++ content)
    | _ =>
        if isinstance_Exception e then print ("An error occurred: " ++ exn_str e)
        else raise e
    end
  else raise (NameError "HttpError").

Definition get_channel_id_by_name_in (globals : list string)
    (channel_name : string) : M St (pyval * pyval) :=
  fun w =>
    match search_channel channel_name w with
    | (Ok (Some found), w') => (Ok found, w')
    | (Ok None, w') => (Ok (PNone, PNone), w')
    | (Raise e, w') =>
        (_ <- except_clauses globals e ;; ret (PNone, PNone)) w'
    end.

Definition get_channel_id_by_name : string -> M St (pyval * pyval) :=
  get_channel_id_by_name_in module_globals.

(** *** [get_channel_stats] *)

Fixpoint channel_rows (items : list pyval) (all_data : list dict)
  : result (list dict) :=
  match items with
  | [] => Ok all_data
  | item :: rest =>
      let? snippet := py_getitem item "snippet" in
      let? title := py_getitem snippet "title" in
      let? statistics := py_getitem item "statistics" in
      let? subscriberCount := py_getitem statistics "subscriberCount" in
      let? statistics' := py_getitem item "statistics" in
      let? viewCount := py_getitem statistics' "viewCount" in
      let? statistics'' := py_getitem item "statistics" in
      let? videoCount := py_getitem statistics'' "videoCount" in
      let? contentDetails := py_getitem item "contentDetails" in
      let? relatedPlaylists := py_getitem contentDetails "relatedPlaylists" in
      let? uploads := py_getitem relatedPlaylists "uploads" in
      let data := [("channelName", title); ("subscribers", subscriberCount);
                   ("views", viewCount); ("totalVideos", videoCount);
                   ("playlistId", uploads)] in
      channel_rows rest (all_data ++ [data])
  end.

Definition get_channel_stats (channel_ids : list string) : M St DataFrame :=
  response <- execute youtube
                (ChannelsList "snippet,contentDetails,statistics"
                              (py_join "," channel_ids)) ;;
  items <- lift (let? items := py_getitem response "items" in py_iter items) ;;
  all_data <- lift (channel_rows items []) ;;
  ret (pd_DataFrame all_data).

(** *** [get_video_ids] *)

Fixpoint append_video_ids (items : list pyval) (video_ids : list pyval)
  : result (list pyval) :=
  match items with
  | [] => Ok video_ids
  | item :: rest =>
      let? contentDetails := py_getitem item "contentDetails" in
      let? videoId := py_getitem contentDetails "videoId" in
      append_video_ids rest (video_ids ++ [videoId])
  end.

(** One page: the request, the loop over its items, the next token.  The
    first page is requested without [pageToken]. *)
Definition playlist_page (playlist_id : string) (pageToken : option pyval)
    (video_ids : list pyval) : M St (list pyval * pyval) :=
  response <- execute youtube (playlist_request playlist_id pageToken) ;;
  items <- lift (let? items := py_getitem response "items" in py_iter items) ;;
  video_ids' <- lift (append_video_ids items video_ids) ;;
  next_page_token <- lift (py_get response "nextPageToken" PNone) ;;
  ret (video_ids', next_page_token).

(** [while next_page_token is not None]: [fuel] bounds the number of times
    the body runs; [None] is a run that needs more. *)
Fixpoint while_next_page (fuel : nat) (playlist_id : string)
    (next_page_token : pyval) (video_ids : list pyval) (w : world St)
  : option (result (list pyval) * world St) :=
  match next_page_token with
  | PNone => Some (Ok video_ids, w)
  | _ =>
      match fuel with
      | O => None
      | S fuel' =>
          match playlist_page playlist_id (Some next_page_token) video_ids w with
          | (Ok (video_ids', next_page_token'), w') =>
              while_next_page fuel' playlist_id next_page_token' video_ids' w'
          | (Raise e, w') => Some (Raise e, w')
          end
      end
  end.

Definition get_video_ids (fuel : nat) (playlist_id : string) (w : world St)
  : option (result (list pyval) * world St) :=
  match playlist_page playlist_id None [] w with
  | (Ok (video_ids, next_page_token), w') =>
      while_next_page fuel playlist_id next_page_token video_ids w'
  | (Raise e, w') => Some (Raise e, w')
  end.

(** *** [get_video_details] *)

Definition stats_to_keep : list (string * list string) :=
  [("snippet", ["channelTitle"; "title"; "description"; "tags"; "publishedAt"]);
   ("statistics", ["viewCount"; "likeCount"; "favoriteCount"; "commentCount"]);
   ("contentDetails", ["duration"; "definition"; "caption"])].

(** The [try]/[except KeyError] around [video_info[v] = video[k][v]]. *)
Definition keep_field (video : pyval) (k v : string) (video_info : dict)
  : result dict :=
  match (let? group := py_getitem video k in py_getitem group v) with
  | Ok x => Ok (dict_set v x video_info)
  | Raise (KeyError _) => Ok (dict_set v PNone video_info)
  | Raise e => Raise e
  end.

Fixpoint keep_fields (video : pyval) (k : string) (vs : list string)
    (video_info : dict) : result dict :=
  match vs with
  | [] => Ok video_info
  | v :: vs' =>
      let? video_info' := keep_field video k v video_info in
      keep_fields video k vs' video_info'
  end.

Fixpoint keep_groups (video : pyval) (groups : list (string * list string))
    (video_info : dict) : result dict :=
  match groups with
  | [] => Ok video_info
  | (k, vs) :: groups' =>
      let? video_info' := keep_fields video k vs video_info in
      keep_groups video groups' video_info'
  end.

Definition build_video_info (video : pyval) : result dict :=
  let? id := py_getitem video "id" in
  keep_groups video stats_to_keep [("video_id", id)].

Fixpoint video_rows (items : list pyval) (all_video_info : list dict)
  : result (list dict) :=
  match items with
  | [] => Ok all_video_info
  | video :: rest =>
      let? video_info := build_video_info video in
      video_rows rest (all_video_info ++ [video_info])
  end.

Definition videos_request (batch : list string) : request :=
  VideosList "snippet,contentDetails,statistics" (py_join "," batch).

(** The request of the batch that starts at position [i]. *)
Definition request_at (video_ids : list string) (i : nat) : request :=
  videos_request (py_slice video_ids i (i + 50)).

(** The outer [for i in range(0, len(video_ids), 50)]. *)
Fixpoint for_batches (starts : list nat) (video_ids : list string)
    (all_video_info : list dict) : M St (list dict) :=
  match starts with
  | [] => ret all_video_info
  | i :: starts' =>
      response <- execute youtube (request_at video_ids i) ;;
      items <- lift (let? items := py_getitem response "items" in py_iter items) ;;
      all_video_info' <- lift (video_rows items all_video_info) ;;
      for_batches starts' video_ids all_video_info'
  end.

Definition get_video_details (video_ids : list string) : M St DataFrame :=
  all_video_info <- for_batches (py_range 0 (List.length video_ids) 50) video_ids [] ;;
  ret (pd_DataFrame all_video_info).

End Operations.

(** ** The shapes of the remote responses

    What section 6 of the specification says a response looks like, as
    decidable checks on values. *)

Definition lookup2 (obj : pyval) (k1 k2 : string) : option pyval :=
  match obj with
  | PDict d =>
      match dict_lookup k1 d with
      | Some (PDict g) => dict_lookup k2 g
      | _ => None
      end
  | _ => None
  end.

Fixpoint all_some {A} (l : list (option A)) : option (list A) :=
  match l with
  | [] => Some []
  | None :: _ => None
  | Some a :: l' =>
      match all_some l' with
      | Some r => Some (a :: r)
      | None => None
      end
  end.

(** [{items: [...]}]. *)
Definition response_items (response : pyval) : option (list pyval) :=
  match response with
  | PDict d =>
      match dict_lookup "items" d with
      | Some (PList l) => Some l
      | _ => None
      end
  | _ => None
  end.

(** *** Search results: [{id: {kind, channelId}, snippet: {title}}] *)

(** The items of a search response; a response may leave [items] out. *)
Definition search_items (response : pyval) : option (list pyval) :=
  match response with
  | PDict d =>
      match dict_lookup "items" d with
      | None => Some []
      | Some (PList l) => Some l
      | Some _ => None
      end
  | _ => None
  end.

Definition is_channel_item (item : pyval) : bool :=
  match lookup2 item "id" "kind" with
  | Some kind => py_eq_str kind "youtube#channel"
  | None => false
  end.

Definition channel_of (item : pyval) : option (pyval * pyval) :=
  match lookup2 item "id" "channelId", lookup2 item "snippet" "title" with
  | Some channelId, Some title => Some (channelId, title)
  | _, _ => None
  end.

(** Every result names its kind; a channel result carries its identifier
    and title. *)
Definition search_item_ok (item : pyval) : bool :=
  match lookup2 item "id" "kind" with
  | Some kind =>
      if py_eq_str kind "youtube#channel" then
        match channel_of item with Some _ => true | None => false end
      else true
  | None => false
  end.

(** *** Playlist pages: [{items: [{contentDetails: {videoId}}], nextPageToken?}] *)

Definition page_video_ids (page : pyval) : option (list pyval) :=
  match response_items page with
  | Some items =>
      all_some (map (fun item => lookup2 item "contentDetails" "videoId") items)
  | None => None
  end.

(** The continuation token of a page, if it carries one. *)
Definition continuation_token (page : pyval) : option pyval :=
  match page with
  | PDict d =>
      match dict_lookup "nextPageToken" d with
      | Some PNone => None
      | Some t => Some t
      | None => None
      end
  | _ => None
  end.

(** The remote service, from state [s], serves the collection as the chain
    [pages]: the first request carries [pageToken], each later one the token
    of the page before it, and only the last page has no token. *)
Fixpoint serves {St} (youtube : client St) (playlist_id : string)
    (pageToken : option pyval) (s : St) (pages : list pyval) : Prop :=
  match pages with
  | [] => False
  | page :: rest =>
      exists s', youtube (playlist_request playlist_id pageToken) s = (Ok page, s') /\
      match rest with
      | [] => continuation_token page = None
      | _ :: _ =>
          exists t, continuation_token page = Some t /\
                    serves youtube playlist_id (Some t) s' rest
      end
  end.

(** *** Video items: [{id, snippet: {...}, statistics: {...}, contentDetails: {...}}] *)

Definition group_ok (d : dict) (k : string) : bool :=
  match dict_lookup k d with
  | None | Some (PDict _) => true
  | Some _ => false
  end.

(** A video item has an [id]; each group it has is an object. *)
Definition video_item_ok (video : pyval) : bool :=
  match video with
  | PDict d =>
      match dict_lookup "id" d with
      | Some _ => forallb (group_ok d) ["snippet"; "statistics"; "contentDetails"]
      | None => false
      end
  | _ => false
  end.

Definition videos_response_ok (response : pyval) : bool :=
  match response_items response with
  | Some items => forallb video_item_ok items
  | None => false
  end.

Definition items_of (response : pyval) : list pyval :=
  match response_items response with
  | Some items => items
  | None => []
  end.

(** The remote service, from state [s], answers the requests [reqs], sent in
    this order, with the responses [resps]. *)
Fixpoint answers {St} (youtube : client St) (s : St) (reqs : list request)
    (resps : list pyval) : Prop :=
  match reqs, resps with
  | [], [] => True
  | req :: reqs', resp :: resps' =>
      exists s', youtube req s = (Ok resp, s') /\ answers youtube s' reqs' resps'
  | _, _ => False
  end.

(** The remote service, from state [s], serves the pages [pages], each
    handing on a continuation token, and then faults with [e] on the request
    for the next page. *)
Fixpoint faults_after {St} (youtube : client St) (playlist_id : string)
    (pageToken : option pyval) (s : St) (pages : list pyval) (e : exn) : Prop :=
  match pages with
  | [] =>
      exists s',
        youtube (playlist_request playlist_id pageToken) s = (Raise e, s')
  | page :: rest =>
      exists s' t,
        youtube (playlist_request playlist_id pageToken) s = (Ok page, s')
        /\ continuation_token page = Some t
        /\ faults_after youtube playlist_id (Some t) s' rest e
  end.

(** ** Fault propagation *)

(** The outcome [r] of a run and the calls [log] it made: a call that
    faulted with [e] is the last call of the run, and the run ends raising
    that same [e]. *)
Definition propagates {A} (r : result A) (log : list (request * result pyval))
  : Prop :=
  forall req e,
    In (req, Raise e) log ->
    r = Raise e /\ exists before, log = (before ++ [(req, Raise e)])%list.

(** The same for a run from [w] to [w'], about the calls it added. *)
Definition fail_fast {St A} (w : world St) (r : result A) (w' : world St)
  : Prop :=
  exists new, calls w' = (calls w ++ new)%list /\ propagates r new.

(** A computation all of whose runs are fail-fast. *)
Definition FailFast {St A} (m : M St A) : Prop :=
  forall w, fail_fast w (fst (m w)) (snd (m w)).

(** ** The record schema and the batches, as the specification words them *)

Definition schema_columns : list string :=
  ["video_id"; "channelTitle"; "title"; "description"; "tags"; "publishedAt";
   "viewCount"; "likeCount"; "favoriteCount"; "commentCount"; "duration";
   "definition"; "caption"].

(** The response group each attribute of the schema is read from. *)
Definition schema_attributes : list (string * string) :=
  [("snippet", "channelTitle"); ("snippet", "title"); ("snippet", "description");
   ("snippet", "tags"); ("snippet", "publishedAt");
   ("statistics", "viewCount"); ("statistics", "likeCount");
   ("statistics", "favoriteCount"); ("statistics", "commentCount");
   ("contentDetails", "duration"); ("contentDetails", "definition");
   ("contentDetails", "caption")].

(** The value of an attribute: the one in its group, else the absent marker. *)
Definition attribute_or_absent (video : pyval) (group attr : string) : pyval :=
  match lookup2 video group attr with
  | Some v => v
  | None => PNone
  end.

(** The record of a well-formed video item. *)
Definition record_of (video : pyval) : dict :=
  ("video_id", match py_getitem video "id" with Ok id => id | Raise _ => PNone end)
  :: map (fun ga => (snd ga, attribute_or_absent video (fst ga) (snd ga)))
         schema_attributes.

Definition batch_count (n : nat) : nat := (n + 49) / 50.

(** Batch [k] covers the positions [50k, 50k+50). *)
Definition batch {A} (video_ids : list A) (k : nat) : list A :=
  py_slice video_ids (50 * k) (50 * k + 50).

Definition batches {A} (video_ids : list A) : list (list A) :=
  map (batch video_ids) (seq 0 (batch_count (List.length video_ids))).

(** ** Test clients *)

(** A client that replays a script of outcomes, whatever the request. *)
Definition scripted : client (list (result pyval)) :=
  fun _ script =>
    match script with
    | r :: rest => (r, rest)
    | [] => (Raise (OtherException "no more responses"), [])
    end.

Definition playlist_item (video_id : string) : pyval :=
  PDict [("contentDetails", PDict [("videoId", PStr video_id)])].

Definition page_of (video_ids : list string) (token : option string) : pyval :=
  PDict (("items", PList (map playlist_item video_ids)) ::
         match token with
         | Some t => [("nextPageToken", PStr t)]
         | None => []
         end).

(** A collection of three pages of 2, 2 and 1 items, chained by the tokens
    [A] and [B]; the item [v2] is on the first and on the second page. *)
Definition three_pages : client unit :=
  fun req s =>
    match req with
    | PlaylistItemsList _ _ _ None => (Ok (page_of ["v1"; "v2"] (Some "A")), s)
    | PlaylistItemsList _ _ _ (Some (PStr "A")) =>
        (Ok (page_of ["v2"; "v3"] (Some "B")), s)
    | PlaylistItemsList _ _ _ (Some (PStr "B")) => (Ok (page_of ["v4"] None), s)
    | _ => (Raise (HttpError 404 "not found"), s)
    end.

(** A collection of [S n] pages of one item each: the state counts the pages
    still to come after the next one. *)
Definition countdown : client nat :=
  fun _ n =>
    match n with
    | O => (Ok (page_of ["v"] None), O)
    | S n' => (Ok (page_of ["v"] (Some "next")), n')
    end.

Fixpoint countdown_pages (n : nat) : list pyval :=
  match n with
  | O => [page_of ["v"] None]
  | S n' => page_of ["v"] (Some "next") :: countdown_pages n'
  end.

Definition video_item (video_id : string) : pyval :=
  PDict [("id", PStr video_id);
         ("snippet", PDict [("channelTitle", PStr "c"); ("title", PStr "t");
                            ("description", PStr "d");
                            ("tags", PList [PStr "x"]);
                            ("publishedAt", PStr "2024-01-01T00:00:00Z")]);
         ("statistics", PDict [("viewCount", PStr "10"); ("likeCount", PStr "2");
                               ("favoriteCount", PStr "0");
                               ("commentCount", PStr "1")]);
         ("contentDetails", PDict [("duration", PStr "PT1M");
                                   ("definition", PStr "hd");
                                   ("caption", PStr "false")])].

(** The item above without [tags] and without the [statistics] group. *)
Definition sparse_video_item : pyval :=
  PDict [("id", PStr "v9");
         ("snippet", PDict [("channelTitle", PStr "c"); ("title", PStr "t");
                            ("description", PStr "d");
                            ("publishedAt", PStr "2024-01-01T00:00:00Z")]);
         ("contentDetails", PDict [("duration", PStr "PT1M");
                                   ("definition", PStr "hd");
                                   ("caption", PStr "false")])].

Definition videos_response (video_ids : list string) : pyval :=
  PDict [("items", PList (map video_item video_ids))].

(** A service that answers each batch with one item per identifier asked. *)
Definition echo_script (video_ids : list string) : list (result pyval) :=
  map (fun b => Ok (videos_response b)) (batches video_ids).

Definition digit (n : nat) : string :=
  String (ascii_of_nat (48 + n mod 10)) EmptyString.

(** [vid000], [vid001], ... *)
Definition numbered_ids (n : nat) : list string :=
  map (fun i => "vid" ++ digit (i / 100) ++ digit (i / 10) ++ digit i) (seq 0 n).

Definition channel_result (channel_id title : string) : pyval :=
  PDict [("kind", PStr "youtube#searchResult");
         ("id", PDict [("kind", PStr "youtube#channel");
                       ("channelId", PStr channel_id)]);
         ("snippet", PDict [("title", PStr title)])].

Definition video_result (video_id title : string) : pyval :=
  PDict [("kind", PStr "youtube#searchResult");
         ("id", PDict [("kind", PStr "youtube#video");
                       ("videoId", PStr video_id)]);
         ("snippet", PDict [("title", PStr title)])].

(** ** Channel items and table rows *)

Definition lookup3 (obj : pyval) (k1 k2 k3 : string) : option pyval :=
  match obj with
  | PDict d =>
      match dict_lookup k1 d with
      | Some g => lookup2 g k2 k3
      | None => None
      end
  | _ => None
  end.

Definition channel_columns : list string :=
  ["channelName"; "subscribers"; "views"; "totalVideos"; "playlistId"].

(** The row of a channel item that has all five fields:
    [{snippet: {title}, statistics: {subscriberCount, viewCount, videoCount},
      contentDetails: {relatedPlaylists: {uploads}}}]. *)
Definition channel_record (item : pyval) : option dict :=
  match lookup2 item "snippet" "title",
        lookup2 item "statistics" "subscriberCount",
        lookup2 item "statistics" "viewCount",
        lookup2 item "statistics" "videoCount",
        lookup3 item "contentDetails" "relatedPlaylists" "uploads" with
  | Some title, Some subscriberCount, Some viewCount, Some videoCount,
    Some uploads =>
      Some [("channelName", title); ("subscribers", subscriberCount);
            ("views", viewCount); ("totalVideos", videoCount);
            ("playlistId", uploads)]
  | _, _, _, _, _ => None
  end.

Definition channels_request (channel_ids : list string) : request :=
  ChannelsList "snippet,contentDetails,statistics" (py_join "," channel_ids).

Definition search_request (channel_name : string) : request :=
  SearchList channel_name "id,snippet" 1 "channel".

(** The [pageToken] of each request of a page walk: the one given for the
    first page, then the token each page hands on. *)
Fixpoint page_tokens (pageToken : option pyval) (pages : list pyval)
  : list (option pyval) :=
  match pages with
  | [] => []
  | page :: rest => pageToken :: page_tokens (continuation_token page) rest
  end.

(** A service whose every page carries a continuation token. *)
Definition endless : client unit :=
  fun _ s => (Ok (page_of ["v"] (Some "more")), s).

Definition channel_item (title subs views videos uploads : string) : pyval :=
  PDict [("snippet", PDict [("title", PStr title)]);
         ("statistics", PDict [("subscriberCount", PStr subs);
                               ("viewCount", PStr views);
                               ("videoCount", PStr videos)]);
         ("contentDetails",
          PDict [("relatedPlaylists", PDict [("uploads", PStr uploads)])])].

(** A channel that hides its subscriber count. *)
Definition hidden_subscribers_item : pyval :=
  PDict [("snippet", PDict [("title", PStr "quiet")]);
         ("statistics", PDict [("hiddenSubscriberCount", PBool true);
                               ("viewCount", PStr "7");
                               ("videoCount", PStr "1")]);
         ("contentDetails",
          PDict [("relatedPlaylists", PDict [("uploads", PStr "UU9")])])].

(** * Properties *)

Open Scope list_scope.
Open Scope nat_scope.
Unset Implicit Arguments.

(** ** Ranges, slices and batches *)

Section Batching.

Lemma batch_count_step (m : nat) :
  0 < m -> batch_count m = S (batch_count (m - 50)).
Proof.
  intros Hm. unfold batch_count.
  destruct (le_lt_dec m 50) as [Hle | Hgt].
  - replace (m - 50) with 0 by lia.
    change ((0 + 49) / 50) with 0.
    symmetry. apply Nat.div_unique with (r := m - 1); lia.
  - replace (m + 49) with ((m - 50 + 49) + 1 * 50) by lia.
    rewrite Nat.div_add by discriminate. lia.
Qed.

Lemma range_from_50 (fuel : nat) :
  forall start stop,
    stop - start <= fuel ->
    range_from fuel start stop 50 =
    map (fun k => start + 50 * k) (seq 0 (batch_count (stop - start))).
Proof.
  induction fuel as [| fuel IH]; intros start stop Hfuel.
  - replace (stop - start) with 0 by lia. reflexivity.
  - simpl range_from. destruct (Nat.ltb_spec start stop) as [Hlt | Hge].
    + rewrite batch_count_step by lia.
      rewrite IH by lia.
      rewrite <- cons_seq, map_cons, <- seq_shift, map_map.
      f_equal; [lia |].
      replace (stop - start - 50) with (stop - (start + 50)) by lia.
      apply map_ext. intros k. lia.
    + replace (stop - start) with 0 by lia. reflexivity.
Qed.

Lemma py_range_50 (n : nat) :
  py_range 0 n 50 = map (fun k => 50 * k) (seq 0 (batch_count n)).
Proof.
  unfold py_range. rewrite range_from_50 by lia.
  rewrite Nat.sub_0_r. reflexivity.
Qed.

Context {A : Type}.
Implicit Types (l : list A) (k j : nat).

Lemma list_eq_nil_dec l : {l = []} + {l <> []}.
Proof. destruct l; [left; reflexivity | right; discriminate]. Qed.

Lemma py_slice_50 l i : py_slice l i (i + 50) = firstn 50 (skipn i l).
Proof. unfold py_slice. f_equal. lia. Qed.

Lemma batch_eq l k : batch l k = firstn 50 (skipn (50 * k) l).
Proof. apply py_slice_50. Qed.

Lemma batch_length l k :
  List.length (batch l k) = Nat.min 50 (List.length l - 50 * k).
Proof. rewrite batch_eq, length_firstn, length_skipn. reflexivity. Qed.

Lemma batch_nth_error l k j x :
  nth_error (batch l k) j = Some x <->
  j < 50 /\ nth_error l (50 * k + j) = Some x.
Proof.
  rewrite batch_eq, nth_error_firstn, nth_error_skipn.
  destruct (Nat.ltb_spec j 50); split; intros H'.
  - split; assumption.
  - apply H'.
  - discriminate.
  - lia.
Qed.

Lemma batches_step l :
  l <> [] -> batches l = firstn 50 l :: batches (skipn 50 l).
Proof.
  intros Hl. unfold batches.
  rewrite batch_count_step by (destruct l; [congruence | simpl; lia]).
  rewrite <- cons_seq, map_cons, <- seq_shift, map_map, length_skipn.
  f_equal.
  apply map_ext. intros k. rewrite !batch_eq, skipn_skipn.
  do 2 f_equal. lia.
Qed.

Lemma batches_concat l : List.concat (batches l) = l.
Proof.
  remember (List.length l) as n eqn:Hn.
  revert l Hn. induction n as [n IH] using lt_wf_ind. intros l Hn.
  destruct (list_eq_nil_dec l) as [-> | Hne].
  - reflexivity.
  - rewrite batches_step, concat_cons by assumption.
    rewrite (IH (List.length (skipn 50 l))).
    + apply firstn_skipn.
    + rewrite length_skipn.
      assert (0 < List.length l) by (destruct l; [congruence | simpl; lia]).
      lia.
    + reflexivity.
Qed.

Lemma batches_125 l :
  List.length l = 125 ->
  batches l = [batch l 0; batch l 1; batch l 2] /\
  List.length (batch l 0) = 50 /\
  List.length (batch l 1) = 50 /\
  List.length (batch l 2) = 25.
Proof.
  intros Hl. unfold batches. rewrite !batch_length, Hl. repeat split.
Qed.

End Batching.

(** ** The monad and the call log *)

Section Runs.

Context {St : Type}.
Variable youtube : client St.

Lemma execute_eq (req : request) (w : world St) r s' :
  youtube req (remote w) = (r, s') ->
  execute youtube req w =
  (r, {| remote := s'; calls := calls w ++ [(req, r)]; stdout := stdout w |}).
Proof. intros H. unfold execute. rewrite H. reflexivity. Qed.

Lemma bind_ok {A B} (m : M St A) (k : A -> M St B) w a w' :
  m w = (Ok a, w') -> bind m k w = k a w'.
Proof. intros H. unfold bind. rewrite H. reflexivity. Qed.

Lemma bind_raise {A B} (m : M St A) (k : A -> M St B) w e w' :
  m w = (Raise e, w') -> bind m k w = (Raise e, w').
Proof. intros H. unfold bind. rewrite H. reflexivity. Qed.

(** *** Building one record *)

Lemma lookup2_getitem (obj : pyval) (k1 k2 : string) (v : pyval) :
  lookup2 obj k1 k2 = Some v ->
  exists g, py_getitem obj k1 = Ok (PDict g) /\ py_getitem (PDict g) k2 = Ok v.
Proof.
  destruct obj as [| | | | | |d]; simpl; try discriminate.
  destruct (dict_lookup k1 d) as [[| | | | | |g]|]; try discriminate.
  intros H. exists g. rewrite H. split; reflexivity.
Qed.

Lemma keep_field_ok (d : dict) (k v : string) (video_info : dict) :
  group_ok d k = true ->
  keep_field (PDict d) k v video_info =
  Ok (dict_set v (attribute_or_absent (PDict d) k v) video_info).
Proof.
  unfold group_ok, keep_field, attribute_or_absent, lookup2. simpl.
  destruct (dict_lookup k d) as [[| | | | | |g]|]; try discriminate; intros _; simpl.
  - destruct (dict_lookup v g); reflexivity.
  - reflexivity.
Qed.

Lemma build_video_info_ok (video : pyval) :
  video_item_ok video = true -> build_video_info video = Ok (record_of video).
Proof.
  destruct video as [| | | | | |d]; simpl; try discriminate.
  unfold build_video_info, record_of. simpl py_getitem.
  destruct (dict_lookup "id" d) as [id|]; [| discriminate].
  rewrite !andb_true_iff. intros (Hsn & Hst & Hcd & _).
  cbn [rbind stats_to_keep keep_groups keep_fields].
  repeat (rewrite keep_field_ok by assumption; cbn [rbind]).
  reflexivity.
Qed.

Lemma video_rows_ok (items : list pyval) :
  forallb video_item_ok items = true ->
  forall all_video_info,
    video_rows items all_video_info = Ok (all_video_info ++ map record_of items).
Proof.
  induction items as [| video rest IH]; simpl; intros H acc.
  - rewrite app_nil_r. reflexivity.
  - apply andb_true_iff in H as [Hv Hrest].
    rewrite build_video_info_ok by assumption. simpl.
    rewrite IH by assumption. rewrite <- app_assoc. reflexivity.
Qed.

Lemma items_of_ok (response : pyval) :
  videos_response_ok response = true ->
  (let? items := py_getitem response "items" in py_iter items) = Ok (items_of response)
  /\ forallb video_item_ok (items_of response) = true.
Proof.
  unfold videos_response_ok, items_of, response_items.
  destruct response as [| | | | | |d]; try discriminate. simpl.
  destruct (dict_lookup "items" d) as [[| | | | |l |]|]; try discriminate.
  intros H. split; [reflexivity | assumption].
Qed.

(** *** The batch loop *)

Lemma for_batches_ok (video_ids : list string) :
  forall starts resps all_video_info w,
    answers youtube (remote w) (map (request_at video_ids) starts) resps ->
    forallb videos_response_ok resps = true ->
    exists w',
      for_batches youtube starts video_ids all_video_info w =
      (Ok (all_video_info ++ map record_of (List.concat (map items_of resps))), w')
      /\ calls w' =
         calls w ++ combine (map (request_at video_ids) starts) (map Ok resps)
      /\ stdout w' = stdout w.
Proof.
  induction starts as [| i starts IH]; intros resps acc w Hans Hok.
  - destruct resps; [| contradiction]. exists w. simpl.
    rewrite !app_nil_r. repeat split.
  - destruct resps as [| resp resps]; [contradiction |].
    simpl in Hans. destruct Hans as (s' & Hreq & Hans).
    simpl in Hok. apply andb_true_iff in Hok as [Hresp Hok].
    destruct (items_of_ok _ Hresp) as [Hitems Hall].
    cbn [for_batches].
    erewrite bind_ok by (apply execute_eq; exact Hreq).
    unfold bind at 1, lift at 1. rewrite Hitems.
    unfold bind at 1, lift at 1. rewrite (video_rows_ok _ Hall).
    destruct (IH resps (acc ++ map record_of (items_of resp))
                 {| remote := s';
                    calls := calls w ++ [(request_at video_ids i, Ok resp)];
                    stdout := stdout w |} Hans Hok)
      as (w' & Hrun & Hcalls & Hout).
    exists w'. rewrite Hrun. simpl in Hcalls, Hout.
    rewrite Hcalls, Hout. simpl.
    rewrite map_app, <- !app_assoc. repeat split.
Qed.

Lemma batch_requests (video_ids : list string) :
  map (request_at video_ids) (py_range 0 (List.length video_ids) 50) =
  map videos_request (batches video_ids).
Proof.
  rewrite py_range_50. unfold batches. rewrite !map_map. reflexivity.
Qed.

Lemma pd_DataFrame_rows (records : list dict) :
  List.length (df_rows (pd_DataFrame records)) = List.length records.
Proof. unfold pd_DataFrame. simpl. apply length_map. Qed.

Lemma get_video_details_ok (s : St) (video_ids : list string) (resps : list pyval) :
  answers youtube s (map videos_request (batches video_ids)) resps ->
  forallb videos_response_ok resps = true ->
  exists w',
    get_video_details youtube video_ids (init s) =
    (Ok (pd_DataFrame (map record_of (List.concat (map items_of resps)))), w')
    /\ calls w' = combine (map videos_request (batches video_ids)) (map Ok resps).
Proof.
  intros Hans Hok. rewrite <- batch_requests in *.
  destruct (for_batches_ok video_ids _ _ [] (init s) Hans Hok)
    as (w' & Hrun & Hcalls & _).
  exists w'. unfold get_video_details.
  erewrite bind_ok by exact Hrun. split; [reflexivity | exact Hcalls].
Qed.

End Runs.

(** ** Walking the pages of a playlist *)

Section Pages.

Context {St : Type}.
Variable youtube : client St.

Lemma append_video_ids_ok (items : list pyval) :
  forall ids video_ids,
    all_some (map (fun item => lookup2 item "contentDetails" "videoId") items)
    = Some ids ->
    append_video_ids items video_ids = Ok (video_ids ++ ids).
Proof.
  induction items as [| item rest IH]; simpl; intros ids acc H.
  - injection H as <-. rewrite app_nil_r. reflexivity.
  - destruct (lookup2 item "contentDetails" "videoId") as [v|] eqn:Ev;
      [| discriminate].
    destruct (all_some _) as [ids'|] eqn:Erest; [| discriminate].
    injection H as <-.
    destruct (lookup2_getitem _ _ _ _ Ev) as (g & Hg & Hv).
    rewrite Hg. cbn [rbind]. rewrite Hv. cbn [rbind].
    rewrite (IH ids') by reflexivity. rewrite <- app_assoc. reflexivity.
Qed.

Lemma continuation_token_not_none (page t : pyval) :
  continuation_token page = Some t -> t <> PNone.
Proof.
  destruct page as [| | | | | |d]; simpl; try discriminate.
  destruct (dict_lookup "nextPageToken" d) as [[]|]; try discriminate;
    intros [= <-]; discriminate.
Qed.

Lemma playlist_page_ok (playlist_id : string) (pageToken : option pyval)
    (video_ids : list pyval) (w : world St) (page : pyval) (s' : St)
    (ids : list pyval) :
  youtube (playlist_request playlist_id pageToken) (remote w) = (Ok page, s') ->
  page_video_ids page = Some ids ->
  playlist_page youtube playlist_id pageToken video_ids w =
  (Ok (video_ids ++ ids,
       match continuation_token page with Some t => t | None => PNone end),
   {| remote := s';
      calls := calls w ++ [(playlist_request playlist_id pageToken, Ok page)];
      stdout := stdout w |}).
Proof.
  intros Hreq Hids. unfold playlist_page.
  erewrite bind_ok by (apply execute_eq; exact Hreq).
  unfold page_video_ids, response_items in Hids.
  destruct page as [| | | | | |d]; try discriminate.
  unfold bind, lift, ret. simpl py_getitem.
  destruct (dict_lookup "items" d) as [[| | | | |items |]|]; try discriminate.
  cbn [rbind py_iter]. rewrite (append_video_ids_ok _ _ _ Hids).
  simpl. destruct (dict_lookup "nextPageToken" d) as [[]|]; reflexivity.
Qed.

Lemma while_next_page_done fuel playlist_id video_ids (w : world St) :
  while_next_page youtube fuel playlist_id PNone video_ids w
  = Some (Ok video_ids, w).
Proof. destruct fuel; reflexivity. Qed.

Lemma while_next_page_out playlist_id t video_ids (w : world St) :
  t <> PNone -> while_next_page youtube 0 playlist_id t video_ids w = None.
Proof. destruct t; intros H; try reflexivity. congruence. Qed.

Lemma while_next_page_step fuel playlist_id t video_ids (w : world St) :
  t <> PNone ->
  while_next_page youtube (S fuel) playlist_id t video_ids w =
  match playlist_page youtube playlist_id (Some t) video_ids w with
  | (Ok (video_ids', t'), w') =>
      while_next_page youtube fuel playlist_id t' video_ids' w'
  | (Raise e, w') => Some (Raise e, w')
  end.
Proof. destruct t; intros H; try reflexivity. congruence. Qed.

Lemma while_next_page_ok (playlist_id : string) :
  forall pages idss t video_ids (w : world St) fuel,
    serves youtube playlist_id (Some t) (remote w) pages ->
    t <> PNone ->
    Forall2 (fun page ids => page_video_ids page = Some ids) pages idss ->
    (List.length pages <= fuel ->
     exists w',
       while_next_page youtube fuel playlist_id t video_ids w
       = Some (Ok (video_ids ++ List.concat idss), w')
       /\ List.length (calls w') = List.length (calls w) + List.length pages)
    /\ (fuel < List.length pages ->
        while_next_page youtube fuel playlist_id t video_ids w = None).
Proof.
  induction pages as [| page rest IH]; intros idss t acc w fuel Hserves Ht Hids.
  - contradiction.
  - inversion Hids as [| ? ids ? idss' Hpage Hrest]; subst.
    destruct Hserves as (s' & Hreq & Hnext).
    destruct fuel as [| fuel].
    + split; [simpl; lia | intros _; apply while_next_page_out, Ht].
    + rewrite while_next_page_step by assumption.
      rewrite (playlist_page_ok _ _ _ _ _ _ _ Hreq Hpage).
      destruct rest as [| page' rest'].
      * inversion Hrest; subst. rewrite Hnext, while_next_page_done.
        split; [intros _ | simpl; lia].
        eexists. split; [simpl; rewrite app_nil_r; reflexivity |].
        simpl. rewrite length_app. simpl. lia.
      * destruct Hnext as (t' & Htok & Hserves'). rewrite Htok.
        pose proof (continuation_token_not_none _ _ Htok) as Ht'.
        specialize (IH idss' t' (acc ++ ids)
                       {| remote := s';
                          calls := calls w ++
                            [(playlist_request playlist_id (Some t), Ok page)];
                          stdout := stdout w |} fuel Hserves' Ht' Hrest).
        destruct IH as [IHok IHout].
        split.
        -- intros Hfuel. destruct IHok as (w' & Hrun & Hlen);
             [simpl in *; lia |].
           exists w'. rewrite Hrun. split.
           ++ simpl. rewrite <- app_assoc. reflexivity.
           ++ rewrite Hlen. simpl. rewrite length_app. simpl. lia.
        -- intros Hfuel. apply IHout. simpl in *. lia.
Qed.

Lemma get_video_ids_ok (playlist_id : string) (s : St) (pages : list pyval)
    (idss : list (list pyval)) (fuel : nat) :
  serves youtube playlist_id None s pages ->
  Forall2 (fun page ids => page_video_ids page = Some ids) pages idss ->
  (List.length pages <= S fuel ->
   exists w',
     get_video_ids youtube fuel playlist_id (init s)
     = Some (Ok (List.concat idss), w')
     /\ List.length (calls w') = List.length pages)
  /\ (S fuel < List.length pages ->
      get_video_ids youtube fuel playlist_id (init s) = None).
Proof.
  intros Hserves Hids. destruct pages as [| page rest]; [contradiction |].
  inversion Hids as [| ? ids ? idss' Hpage Hrest]; subst.
  destruct Hserves as (s' & Hreq & Hnext).
  unfold get_video_ids.
  rewrite (playlist_page_ok playlist_id None [] (init s) _ _ _ Hreq Hpage).
  destruct rest as [| page' rest'].
  - inversion Hrest; subst. rewrite Hnext, while_next_page_done.
    split; [intros _ | simpl; lia].
    eexists. split; [simpl; rewrite app_nil_r; reflexivity | reflexivity].
  - destruct Hnext as (t' & Htok & Hserves'). rewrite Htok.
    pose proof (continuation_token_not_none _ _ Htok) as Ht'.
    destruct (while_next_page_ok playlist_id _ _ t' ([] ++ ids)
                {| remote := s';
                   calls := calls (init s) ++
                     [(playlist_request playlist_id None, Ok page)];
                   stdout := stdout (init s) |} fuel Hserves' Ht' Hrest)
      as [Hok Hout].
    split.
    + intros Hfuel. destruct Hok as (w' & Hrun & Hlen); [simpl in *; lia |].
      exists w'. rewrite Hrun. split; [reflexivity |].
      rewrite Hlen. reflexivity.
    + intros Hfuel. apply Hout. simpl in *. lia.
Qed.

End Pages.

(** ** Faults surface unchanged *)

Section FailFast.

Context {St : Type}.
Variable youtube : client St.

Lemma fail_fast_pure {A} (r : result A) (w : world St) : fail_fast w r w.
Proof.
  exists []. split; [symmetry; apply app_nil_r | intros req e []].
Qed.

Lemma fail_fast_execute (req : request) (w : world St) :
  fail_fast w (fst (execute youtube req w)) (snd (execute youtube req w)).
Proof.
  unfold execute. destruct (youtube req (remote w)) as [r s']. simpl.
  exists [(req, r)]. split; [reflexivity |].
  intros req' e [[= <- ->] | []]. split; [reflexivity | exists []; reflexivity].
Qed.

Lemma fail_fast_trans {A B} (w w1 w' : world St) (a : A) (r : result B) :
  fail_fast w (Ok a) w1 -> fail_fast w1 r w' -> fail_fast w r w'.
Proof.
  intros (new1 & H1 & P1) (new2 & H2 & P2).
  exists (new1 ++ new2). split.
  - rewrite H2, H1, app_assoc. reflexivity.
  - intros req e Hin. apply in_app_or in Hin as [Hin | Hin].
    + destruct (P1 _ _ Hin) as [Habs _]. discriminate.
    + destruct (P2 _ _ Hin) as [-> (before & ->)].
      split; [reflexivity |]. exists (new1 ++ before). apply app_assoc.
Qed.

Lemma fail_fast_raise {A B} (w w' : world St) (e : exn) :
  fail_fast (A := A) w (Raise e) w' -> fail_fast (A := B) w (Raise e) w'.
Proof.
  intros (new & H & P). exists new. split; [exact H |].
  intros req e' Hin. destruct (P _ _ Hin) as [[= ->] Hlast].
  split; [reflexivity | exact Hlast].
Qed.

Lemma FailFast_bind {A B} (m : M St A) (k : A -> M St B) :
  FailFast m -> (forall a, FailFast (k a)) -> FailFast (bind m k).
Proof.
  intros Hm Hk w. unfold bind. specialize (Hm w).
  destruct (m w) as [[a | e] w1]; simpl in *.
  - eapply fail_fast_trans; [exact Hm | apply Hk].
  - eapply fail_fast_raise, Hm.
Qed.

Lemma FailFast_lift {A} (r : result A) : FailFast (St := St) (lift r).
Proof. intros w. apply fail_fast_pure. Qed.

Lemma FailFast_ret {A} (a : A) : FailFast (St := St) (ret a).
Proof. intros w. apply fail_fast_pure. Qed.

Lemma FailFast_execute (req : request) : FailFast (execute youtube req).
Proof. intros w. apply fail_fast_execute. Qed.

Create HintDb failfast.
#[local] Hint Resolve FailFast_lift FailFast_ret FailFast_execute : failfast.

Ltac fail_fast_steps :=
  repeat (apply FailFast_bind; [| intros ?]); auto with failfast.

Lemma FailFast_get_channel_stats (channel_ids : list string) :
  FailFast (get_channel_stats youtube channel_ids).
Proof. unfold get_channel_stats. fail_fast_steps. Qed.

Lemma FailFast_playlist_page playlist_id pageToken video_ids :
  FailFast (playlist_page youtube playlist_id pageToken video_ids).
Proof. unfold playlist_page. fail_fast_steps. Qed.

Lemma FailFast_for_batches (video_ids : list string) :
  forall starts all_video_info,
    FailFast (for_batches youtube starts video_ids all_video_info).
Proof.
  induction starts as [| i starts IH]; intros acc; simpl.
  - apply FailFast_ret.
  - fail_fast_steps.
Qed.

Lemma FailFast_get_video_details (video_ids : list string) :
  FailFast (get_video_details youtube video_ids).
Proof.
  unfold get_video_details. apply FailFast_bind.
  - apply FailFast_for_batches.
  - intros ?. apply FailFast_ret.
Qed.

Lemma pyval_none_dec (t : pyval) : {t = PNone} + {t <> PNone}.
Proof. destruct t; (left; reflexivity) || (right; discriminate). Qed.

Lemma fail_fast_while (playlist_id : string) :
  forall fuel t video_ids (w : world St) r w',
    while_next_page youtube fuel playlist_id t video_ids w = Some (r, w') ->
    fail_fast w r w'.
Proof.
  induction fuel as [| fuel IH]; intros t acc w r w' Hrun;
    destruct (pyval_none_dec t) as [-> | Ht].
  - rewrite while_next_page_done in Hrun. injection Hrun as <- <-.
    apply fail_fast_pure.
  - rewrite while_next_page_out in Hrun by assumption. discriminate.
  - rewrite while_next_page_done in Hrun. injection Hrun as <- <-.
    apply fail_fast_pure.
  - rewrite while_next_page_step in Hrun by assumption.
    pose proof (FailFast_playlist_page playlist_id (Some t) acc w) as Hpage.
    destruct (playlist_page youtube playlist_id (Some t) acc w)
      as [[[acc' t'] | e] w1]; simpl in Hpage.
    + eapply fail_fast_trans; [exact Hpage | eapply IH, Hrun].
    + injection Hrun as <- <-. eapply fail_fast_raise, Hpage.
Qed.

Lemma fail_fast_get_video_ids (fuel : nat) (playlist_id : string)
    (w : world St) r w' :
  get_video_ids youtube fuel playlist_id w = Some (r, w') -> fail_fast w r w'.
Proof.
  unfold get_video_ids. intros Hrun.
  pose proof (FailFast_playlist_page playlist_id None [] w) as Hpage.
  destruct (playlist_page youtube playlist_id None [] w)
    as [[[acc' t'] | e] w1]; simpl in Hpage.
  - eapply fail_fast_trans; [exact Hpage | eapply fail_fast_while, Hrun].
  - injection Hrun as <- <-. eapply fail_fast_raise, Hpage.
Qed.

Lemma fail_fast_init {A} (s : St) (r : result A) (w' : world St) :
  fail_fast (init s) r w' -> propagates r (calls w').
Proof. intros (new & -> & H). exact H. Qed.

End FailFast.

(** ** Resolving a channel name *)

Section Search.

Context {St : Type}.
Variable youtube : client St.

Lemma first_channel_ok (items : list pyval) :
  forallb search_item_ok items = true ->
  first_channel items =
  Ok (match find is_channel_item items with
      | Some item => channel_of item
      | None => None
      end).
Proof.
  induction items as [| item rest IH]; simpl; intros H; [reflexivity |].
  apply andb_true_iff in H as [Hitem Hrest].
  unfold search_item_ok in Hitem. unfold is_channel_item at 1.
  destruct (lookup2 item "id" "kind") as [kind|] eqn:Ekind; [| discriminate].
  destruct (lookup2_getitem _ _ _ _ Ekind) as (g & Hid & Hkind).
  rewrite Hid. cbn [rbind]. rewrite Hkind. cbn [rbind].
  destruct (py_eq_str kind "youtube#channel"); [| exact (IH Hrest)].
  unfold channel_of in *.
  destruct (lookup2 item "id" "channelId") as [c|] eqn:Ec; [| discriminate].
  destruct (lookup2 item "snippet" "title") as [t|] eqn:Et; [| discriminate].
  destruct (lookup2_getitem _ _ _ _ Ec) as (g' & Hid' & Hc).
  destruct (lookup2_getitem _ _ _ _ Et) as (sn & Hsn & Ht).
  rewrite Hid in Hid'. injection Hid' as <-.
  rewrite Hc. cbn [rbind]. rewrite Hsn. cbn [rbind]. rewrite Ht. reflexivity.
Qed.

Lemma search_channel_ok (channel_name : string) (w : world St)
    (response : pyval) (s' : St) (items : list pyval) :
  youtube (SearchList channel_name "id,snippet" 1 "channel") (remote w)
  = (Ok response, s') ->
  search_items response = Some items ->
  fst (search_channel youtube channel_name w) = first_channel items.
Proof.
  intros Hreq Hitems. unfold search_channel.
  erewrite bind_ok by (apply execute_eq; exact Hreq).
  unfold search_items in Hitems.
  destruct response as [| | | | | |d]; try discriminate.
  unfold bind, lift. simpl py_get.
  destruct (dict_lookup "items" d) as [[| | | | |l |]|]; try discriminate;
    injection Hitems as <-; reflexivity.
Qed.

Lemma get_channel_id_by_name_found channel_name (w : world St) found :
  fst (search_channel youtube channel_name w) = Ok (Some found) ->
  fst (get_channel_id_by_name youtube channel_name w) = Ok found.
Proof.
  unfold get_channel_id_by_name, get_channel_id_by_name_in.
  destruct (search_channel youtube channel_name w) as [[[?|]|] ?]; simpl;
    intros [= ->]. reflexivity.
Qed.

Lemma get_channel_id_by_name_not_found channel_name (w : world St) :
  fst (search_channel youtube channel_name w) = Ok None ->
  fst (get_channel_id_by_name youtube channel_name w) = Ok (PNone, PNone).
Proof.
  unfold get_channel_id_by_name, get_channel_id_by_name_in.
  destruct (search_channel youtube channel_name w) as [[[?|]|] ?]; simpl;
    intros [=]. reflexivity.
Qed.

(** An exception of the [try] block never reaches a handler in [utils.py]:
    looking up [HttpError] fails first. *)
Lemma get_channel_id_by_name_raises channel_name (w : world St) e :
  fst (search_channel youtube channel_name w) = Raise e ->
  fst (get_channel_id_by_name youtube channel_name w)
  = Raise (NameError "HttpError").
Proof.
  unfold get_channel_id_by_name, get_channel_id_by_name_in.
  destruct (search_channel youtube channel_name w) as [[[?|]|] ?]; simpl;
    intros [=]. reflexivity.
Qed.

(** With [HttpError] imported the handlers do what the docstring says. *)
Lemma get_channel_id_by_name_in_recovers channel_name (w : world St) e :
  fst (search_channel youtube channel_name w) = Raise e ->
  isinstance_Exception e = true ->
  fst (get_channel_id_by_name_in youtube ("HttpError" :: module_globals)
         channel_name w)
  = Ok (PNone, PNone).
Proof.
  unfold get_channel_id_by_name_in.
  destruct (search_channel youtube channel_name w) as [[[?|]|] ?]; simpl;
    intros [= ->] He.
  destruct e; try discriminate; reflexivity.
Qed.

Lemma search_channel_fault channel_name (w : world St) e s' :
  youtube (SearchList channel_name "id,snippet" 1 "channel") (remote w)
  = (Raise e, s') ->
  fst (search_channel youtube channel_name w) = Raise e.
Proof.
  intros Hreq. unfold search_channel.
  erewrite bind_raise by (apply execute_eq; exact Hreq). reflexivity.
Qed.

End Search.

(** ** The requests of the batch loop, whatever the service does *)

Section BatchRequests.

Context {St : Type}.
Variable youtube : client St.

Lemma execute_calls (req : request) (w : world St) :
  calls (snd (execute youtube req w))
  = calls w ++ [(req, fst (execute youtube req w))].
Proof.
  unfold execute. destruct (youtube req (remote w)). reflexivity.
Qed.

Lemma for_batches_requests (video_ids : list string) :
  forall starts all_video_info (w : world St),
  exists n,
    map fst (calls (snd (for_batches youtube starts video_ids all_video_info w)))
    = map fst (calls w) ++ firstn n (map (request_at video_ids) starts).
Proof.
  induction starts as [| i starts IH]; intros acc w.
  - exists 0. simpl. rewrite app_nil_r. reflexivity.
  - cbn [for_batches]. unfold bind at 1.
    pose proof (execute_calls (request_at video_ids i) w) as Hcalls.
    destruct (execute youtube (request_at video_ids i) w) as [[resp | e] w1];
      simpl in Hcalls.
    + unfold bind at 1, lift at 1.
      destruct (let? items := py_getitem resp "items" in py_iter items)
        as [items | e].
      * unfold bind at 1, lift at 1.
        destruct (video_rows items acc) as [acc' | e].
        -- destruct (IH acc' w1) as [n Hn]. exists (S n).
           rewrite Hn, Hcalls, map_app, <- app_assoc. reflexivity.
        -- exists 1. simpl. rewrite Hcalls, map_app. reflexivity.
      * exists 1. simpl. rewrite Hcalls, map_app. reflexivity.
    + exists 1. simpl. rewrite Hcalls, map_app. reflexivity.
Qed.

Lemma get_video_details_requests (video_ids : list string) (s : St) :
  exists n,
    map fst (calls (snd (get_video_details youtube video_ids (init s))))
    = firstn n (map videos_request (batches video_ids)).
Proof.
  destruct (for_batches_requests video_ids
              (py_range 0 (List.length video_ids) 50) [] (init s)) as [n Hn].
  change (map fst (calls (init s))) with (@nil request) in Hn.
  rewrite app_nil_l in Hn.
  exists n. rewrite <- batch_requests, <- Hn.
  unfold get_video_details, bind, ret.
  destruct (for_batches youtube _ video_ids [] (init s)) as [[? | ?] ?];
    reflexivity.
Qed.

End BatchRequests.

(** ** The claims *)

(** C1 (the code departs from it).  [get_channel_stats] with an empty
    identifier list does not fail with [ValueError] before any remote
    request: whatever the client, it sends one request whose [id] filter is
    the empty string, and when the service answers with no items it returns
    an empty table. *)
Theorem get_channel_stats_empty_ids_sends_request :
  (forall St (youtube : client St) (s : St),
      calls (snd (get_channel_stats youtube [] (init s)))
      = [(ChannelsList "snippet,contentDetails,statistics" "",
          fst (youtube (ChannelsList "snippet,contentDetails,statistics" "") s))])
  /\ get_channel_stats scripted [] (init [Ok (PDict [("items", PList [])])])
     = (Ok {| df_columns := []; df_rows := [] |},
        {| remote := [];
           calls := [(ChannelsList "snippet,contentDetails,statistics" "",
                      Ok (PDict [("items", PList [])]))];
           stdout := [] |}).
Proof.
  split; [| reflexivity].
  intros St youtube s. unfold get_channel_stats, bind at 1.
  pose proof (execute_calls youtube
                (ChannelsList "snippet,contentDetails,statistics"
                              (py_join "," [])) (init s)) as Hcalls.
  assert (Hfst : fst (execute youtube
                        (ChannelsList "snippet,contentDetails,statistics"
                                      (py_join "," [])) (init s))
                 = fst (youtube (ChannelsList
                                   "snippet,contentDetails,statistics" "") s)).
  { unfold execute. simpl. destruct (youtube _ s). reflexivity. }
  rewrite Hfst in Hcalls. clear Hfst.
  destruct (execute youtube _ (init s)) as [[resp | e] w1]; simpl in Hcalls.
  - unfold bind, lift, ret.
    destruct (let? items := py_getitem resp "items" in py_iter items);
      [destruct (channel_rows _ _) |]; exact Hcalls.
  - exact Hcalls.
Qed.

(** C2 (the code departs from it).  For the empty list
    [get_video_details] sends no request, and the table it returns has no
    rows and no columns at all: not the thirteen columns of the schema. *)
Theorem get_video_details_empty_has_no_columns :
  forall St (youtube : client St) (s : St),
    get_video_details youtube [] (init s)
    = (Ok {| df_columns := []; df_rows := [] |}, init s)
    /\ df_columns {| df_columns := []; df_rows := [] |} <> schema_columns.
Proof.
  intros St youtube s. split; [reflexivity | discriminate].
Qed.

(** C3 (the code departs from it).  A fault of the search call is not
    turned into [(None, None)]: matching the first [except] clause looks up
    [HttpError], which [utils.py] never imports, so the caller gets a
    [NameError] whatever the fault was. *)
Theorem get_channel_id_by_name_fault_raises_NameError :
  (forall St (youtube : client St) (s : St) (channel_name : string),
      match fst (youtube (SearchList channel_name "id,snippet" 1 "channel") s) with
      | Raise _ =>
          fst (get_channel_id_by_name youtube channel_name (init s))
          = Raise (NameError "HttpError")
      | Ok _ => True
      end)
  /\ get_channel_id_by_name scripted "some channel"
       (init [Raise (HttpError 503 "backend unavailable")])
     = (Raise (NameError "HttpError"),
        {| remote := [];
           calls := [(SearchList "some channel" "id,snippet" 1 "channel",
                      Raise (HttpError 503 "backend unavailable"))];
           stdout := [] |}).
Proof.
  split; [| reflexivity].
  intros St youtube s channel_name.
  destruct (youtube (SearchList channel_name "id,snippet" 1 "channel") s)
    as [[resp | e] s'] eqn:Hreq; simpl; [exact I |].
  eapply get_channel_id_by_name_raises, search_channel_fault. exact Hreq.
Qed.

Lemma answers_length {St} (youtube : client St) :
  forall reqs resps s,
    answers youtube s reqs resps -> List.length reqs = List.length resps.
Proof.
  induction reqs as [| req reqs IH]; intros [| resp resps] s H;
    try contradiction; [reflexivity |].
  destruct H as (s' & _ & H). simpl. f_equal. eapply IH, H.
Qed.

Lemma combine_fst_snd {A B} (l : list A) :
  forall (l' : list B),
    List.length l = List.length l' ->
    map fst (combine l l') = l /\ map snd (combine l l') = l'.
Proof.
  induction l as [| a l IH]; intros [| b l'] H; try discriminate;
    [split; reflexivity |].
  injection H as H. destruct (IH l' H) as [Hf Hs]. simpl.
  rewrite Hf, Hs. split; reflexivity.
Qed.

(** C4.  [get_video_details] cuts the identifier list into the consecutive
    slices of positions [50k, 50k+50), which together are the list again;
    whatever the service does, the requests it sends are the first of these
    batches in ascending order, each a [videos.list] request whose [id] is
    the comma-joined identifiers of the batch; when every batch is answered
    it sends them all and builds one record per response item, as many
    records as identifiers when each response has one item per identifier
    asked; and 125 identifiers make exactly the three batches of 50, 50 and
    25. *)
Theorem get_video_details_batches (video_ids : list string) :
  (List.concat (batches video_ids) = video_ids
   /\ forall k j x,
       nth_error (batch video_ids k) j = Some x <->
       j < 50 /\ nth_error video_ids (50 * k + j) = Some x)
  /\ (forall St (youtube : client St) (s : St),
       exists n,
         map fst (calls (snd (get_video_details youtube video_ids (init s))))
         = firstn n
             (map (fun k => VideosList "snippet,contentDetails,statistics"
                              (String.concat "," (batch video_ids k)))
                  (seq 0 (batch_count (List.length video_ids)))))
  /\ (forall St (youtube : client St) (s : St) (resps : list pyval),
       answers youtube s
         (map (fun k => VideosList "snippet,contentDetails,statistics"
                          (String.concat "," (batch video_ids k)))
              (seq 0 (batch_count (List.length video_ids)))) resps ->
       forallb videos_response_ok resps = true ->
       exists df w',
         get_video_details youtube video_ids (init s) = (Ok df, w')
         /\ map fst (calls w')
            = map (fun k => VideosList "snippet,contentDetails,statistics"
                              (String.concat "," (batch video_ids k)))
                  (seq 0 (batch_count (List.length video_ids)))
         /\ map snd (calls w') = map Ok resps
         /\ List.length (df_rows df)
            = List.length (List.concat (map items_of resps))
         /\ (map (fun resp => List.length (items_of resp)) resps
             = map (@List.length string) (batches video_ids) ->
             List.length (df_rows df) = List.length video_ids))
  /\ (List.length video_ids = 125 ->
      batches video_ids = [batch video_ids 0; batch video_ids 1; batch video_ids 2]
      /\ List.length (batch video_ids 0) = 50
      /\ List.length (batch video_ids 1) = 50
      /\ List.length (batch video_ids 2) = 25).
Proof.
  assert (Hreqs : map (fun k => VideosList "snippet,contentDetails,statistics"
                                  (String.concat "," (batch video_ids k)))
                      (seq 0 (batch_count (List.length video_ids)))
                  = map videos_request (batches video_ids))
    by (unfold batches; rewrite map_map; reflexivity).
  rewrite Hreqs.
  split; [split; [apply batches_concat | apply batch_nth_error] |].
  split; [intros St youtube s; apply get_video_details_requests |].
  split; [| apply batches_125].
  intros St youtube s resps Hans Hok.
  destruct (get_video_details_ok youtube s video_ids resps Hans Hok)
    as (w' & Hrun & Hcalls).
  pose proof (answers_length _ _ _ _ Hans) as Hlen.
  rewrite length_map in Hlen.
  destruct (combine_fst_snd (map videos_request (batches video_ids))
              (map (@Ok pyval) resps)) as [Hfst Hsnd];
    [rewrite !length_map; exact Hlen |].
  eexists. exists w'. split; [exact Hrun |].
  rewrite Hcalls, Hfst, Hsnd, pd_DataFrame_rows, length_map.
  repeat split.
  intros Hecho.
  rewrite <- (batches_concat video_ids) at 1.
  rewrite !length_concat, map_map, Hecho. reflexivity.
Qed.

Lemma get_video_details_batches_witness :
  answers scripted (echo_script (numbered_ids 125))
    (map (fun k => VideosList "snippet,contentDetails,statistics"
                     (String.concat "," (batch (numbered_ids 125) k)))
         (seq 0 (batch_count (List.length (numbered_ids 125)))))
    (map videos_response (batches (numbered_ids 125)))
  /\ forallb videos_response_ok (map videos_response (batches (numbered_ids 125)))
     = true
  /\ exists df w',
      get_video_details scripted (numbered_ids 125)
        (init (echo_script (numbered_ids 125))) = (Ok df, w')
      /\ map fst (calls w')
         = [VideosList "snippet,contentDetails,statistics"
              (String.concat "," (firstn 50 (numbered_ids 125)));
            VideosList "snippet,contentDetails,statistics"
              (String.concat "," (firstn 50 (skipn 50 (numbered_ids 125))));
            VideosList "snippet,contentDetails,statistics"
              "vid100,vid101,vid102,vid103,vid104,vid105,vid106,vid107,vid108,vid109,vid110,vid111,vid112,vid113,vid114,vid115,vid116,vid117,vid118,vid119,vid120,vid121,vid122,vid123,vid124"]
      /\ map (@List.length string)
             [firstn 50 (numbered_ids 125);
              firstn 50 (skipn 50 (numbered_ids 125));
              skipn 100 (numbered_ids 125)] = [50; 50; 25]
      /\ List.length (df_rows df) = 125.
Proof.
  assert (Hans : answers scripted (echo_script (numbered_ids 125))
                   (map (fun k => VideosList "snippet,contentDetails,statistics"
                                    (String.concat ","
                                       (batch (numbered_ids 125) k)))
                        (seq 0 (batch_count (List.length (numbered_ids 125)))))
                   (map videos_response (batches (numbered_ids 125)))).
  { vm_compute. repeat (eexists; split; [reflexivity |]). exact I. }
  assert (Hok : forallb videos_response_ok
                  (map videos_response (batches (numbered_ids 125))) = true)
    by (vm_compute; reflexivity).
  split; [exact Hans | split; [exact Hok |]].
  destruct (get_video_details_batches (numbered_ids 125))
    as (_ & _ & Hrun & _).
  destruct (Hrun _ scripted _ _ Hans Hok)
    as (df & w' & Heq & Hfst & _ & _ & Hecho).
  exists df, w'. split; [exact Heq |]. split; [| split].
  - rewrite Hfst. vm_compute. reflexivity.
  - vm_compute. reflexivity.
  - rewrite Hecho; vm_compute; reflexivity.
Defined.

(** C5.  When the service serves the collection as a chain of pages that
    ends in a page without continuation token, [get_video_ids] returns the
    concatenation of the video identifiers of the pages, page after page and
    item after item: nothing is dropped, merged, moved or sorted. *)
Theorem get_video_ids_concat :
  forall St (youtube : client St) (s : St) (playlist_id : string)
         (pages : list pyval) (idss : list (list pyval)) (fuel : nat),
    serves youtube playlist_id None s pages ->
    Forall2 (fun page ids => page_video_ids page = Some ids) pages idss ->
    List.length pages <= S fuel ->
    exists w',
      get_video_ids youtube fuel playlist_id (init s)
      = Some (Ok (List.concat idss), w').
Proof.
  intros St youtube s playlist_id pages idss fuel Hserves Hids Hfuel.
  destruct (get_video_ids_ok youtube playlist_id s pages idss fuel Hserves Hids)
    as [Hok _].
  destruct (Hok Hfuel) as (w' & Hrun & _). exists w'. exact Hrun.
Qed.

Lemma get_video_ids_concat_witness :
  exists w',
    get_video_ids three_pages 2 "PL" (init tt)
    = Some (Ok [PStr "v1"; PStr "v2"; PStr "v2"; PStr "v3"; PStr "v4"], w').
Proof.
  apply (get_video_ids_concat unit three_pages tt "PL"
           [page_of ["v1"; "v2"] (Some "A"); page_of ["v2"; "v3"] (Some "B");
            page_of ["v4"] None]
           [[PStr "v1"; PStr "v2"]; [PStr "v2"; PStr "v3"]; [PStr "v4"]] 2).
  - simpl. repeat (eexists; split; [reflexivity |]). reflexivity.
  - repeat constructor.
  - simpl. lia.
Defined.

Lemma record_of_lookup (video : pyval) (group attr : string) :
  In (group, attr) schema_attributes ->
  dict_lookup attr (record_of video)
  = Some (attribute_or_absent video group attr).
Proof.
  unfold schema_attributes. simpl In. intros H.
  repeat (destruct H as [[= <- <-] | H]; [reflexivity |]).
  contradiction.
Qed.

Lemma response_items_ok (resps : list pyval) :
  forallb videos_response_ok resps = true ->
  forallb video_item_ok (List.concat (map items_of resps)) = true.
Proof.
  induction resps as [| resp resps IH]; simpl; intros Hok; [reflexivity |].
  apply andb_true_iff in Hok as [Hresp Hok].
  rewrite forallb_app, (IH Hok).
  destruct (items_of_ok _ Hresp) as [_ ->]. reflexivity.
Qed.

Lemma records_of_items (items : list pyval) :
  forallb video_item_ok items = true ->
  Forall2 (fun video video_info => build_video_info video = Ok video_info)
          items (map record_of items).
Proof.
  induction items as [| video rest IH]; simpl; intros Hall; constructor;
    apply andb_true_iff in Hall as [Hvideo Hrest].
  - apply build_video_info_ok, Hvideo.
  - apply IH, Hrest.
Qed.

(** C6.  For a response item that has an [id] and whose groups, where it
    has them, are objects, the record [get_video_details] builds has exactly
    the thirteen keys of the schema, in this order, and each of the twelve
    attributes holds the value found in its group, or [None] when the group
    or the attribute is missing; no exception is raised.  The table of a run
    is made of these records, one per response item. *)
Theorem build_video_info_schema :
  (forall video : pyval,
      video_item_ok video = true ->
      exists video_info,
        build_video_info video = Ok video_info
        /\ dict_keys video_info = schema_columns
        /\ (exists id, py_getitem video "id" = Ok id
                       /\ dict_lookup "video_id" video_info = Some id)
        /\ forall group attr,
            In (group, attr) schema_attributes ->
            dict_lookup attr video_info
            = Some (attribute_or_absent video group attr))
  /\ (forall St (youtube : client St) (s : St) (video_ids : list string)
             (resps : list pyval),
         answers youtube s (map videos_request (batches video_ids)) resps ->
         forallb videos_response_ok resps = true ->
         exists records,
           fst (get_video_details youtube video_ids (init s))
           = Ok (pd_DataFrame records)
           /\ Forall2 (fun video video_info =>
                         build_video_info video = Ok video_info)
                      (List.concat (map items_of resps)) records).
Proof.
  split.
  - intros video Hok. exists (record_of video).
    split; [apply build_video_info_ok, Hok |].
    split; [reflexivity |].
    split; [| intros group attr; apply record_of_lookup].
    destruct video as [| | | | | |d]; try discriminate.
    unfold record_of. simpl in *.
    destruct (dict_lookup "id" d) as [id|]; [| discriminate].
    exists id. split; reflexivity.
  - intros St youtube s video_ids resps Hans Hok.
    destruct (get_video_details_ok youtube s video_ids resps Hans Hok)
      as (w' & Hrun & _).
    eexists. rewrite Hrun. split; [reflexivity |].
    apply records_of_items, response_items_ok, Hok.
Qed.

Lemma build_video_info_schema_witness :
  video_item_ok sparse_video_item = true
  /\ exists video_info,
      build_video_info sparse_video_item = Ok video_info
      /\ dict_keys video_info = schema_columns
      /\ dict_lookup "tags" video_info = Some PNone
      /\ dict_lookup "viewCount" video_info = Some PNone
      /\ dict_lookup "title" video_info = Some (PStr "t").
Proof.
  split; [reflexivity |].
  destruct build_video_info_schema as [Hitem _].
  destruct (Hitem sparse_video_item eq_refl)
    as (video_info & Hrun & Hkeys & _ & Hattr).
  exists video_info. split; [exact Hrun |]. split; [exact Hkeys |].
  split; [| split].
  - apply (Hattr "snippet" "tags"). simpl. tauto.
  - apply (Hattr "statistics" "viewCount"). simpl. tauto.
  - apply (Hattr "snippet" "title"). simpl. tauto.
Defined.

Lemma existsb_false_find {A} (f : A -> bool) (l : list A) :
  existsb f l = false -> find f l = None.
Proof.
  induction l as [| a l IH]; simpl; [reflexivity |].
  destruct (f a); [discriminate | exact IH].
Qed.

(** C7.  When the search call returns a response whose results have the
    shape of the interface, [get_channel_id_by_name] returns the identifier
    and title of the first channel-kind result if there is one, and
    [(None, None)] if no result is of kind [youtube#channel], in particular
    if there is no result at all. *)
Theorem get_channel_id_by_name_result :
  forall St (youtube : client St) (s s' : St) (channel_name : string)
         (response : pyval) (items : list pyval),
    youtube (SearchList channel_name "id,snippet" 1 "channel") s
    = (Ok response, s') ->
    search_items response = Some items ->
    forallb search_item_ok items = true ->
    (forall item,
        find is_channel_item items = Some item ->
        exists channelId title,
          channel_of item = Some (channelId, title)
          /\ fst (get_channel_id_by_name youtube channel_name (init s))
             = Ok (channelId, title))
    /\ (existsb is_channel_item items = false ->
        fst (get_channel_id_by_name youtube channel_name (init s))
        = Ok (PNone, PNone))
    /\ (items = [] ->
        fst (get_channel_id_by_name youtube channel_name (init s))
        = Ok (PNone, PNone)).
Proof.
  intros St youtube s s' channel_name response items Hreq Hitems Hok.
  pose proof (search_channel_ok youtube channel_name (init s) response s'
                items Hreq Hitems) as Hsearch.
  rewrite (first_channel_ok items Hok) in Hsearch.
  assert (Hnone : existsb is_channel_item items = false ->
                  fst (get_channel_id_by_name youtube channel_name (init s))
                  = Ok (PNone, PNone)).
  { intros Hno. rewrite (existsb_false_find _ _ Hno) in Hsearch.
    apply get_channel_id_by_name_not_found, Hsearch. }
  split; [| split; [exact Hnone | intros ->; apply Hnone; reflexivity]].
  intros item Hfind. rewrite Hfind in Hsearch.
  apply find_some in Hfind as [Hin Hkind].
  rewrite forallb_forall in Hok. specialize (Hok item Hin).
  unfold search_item_ok in Hok. unfold is_channel_item in Hkind.
  destruct (lookup2 item "id" "kind") as [kind|]; [| discriminate].
  rewrite Hkind in Hok.
  destruct (channel_of item) as [[channelId title]|]; [| discriminate].
  exists channelId, title. split; [reflexivity |].
  apply get_channel_id_by_name_found, Hsearch.
Qed.

Lemma get_channel_id_by_name_result_witness :
  fst (get_channel_id_by_name scripted "rocq"
         (init [Ok (PDict [("items", PList [video_result "v1" "A video";
                                            channel_result "UC1" "Rocq"])])]))
  = Ok (PStr "UC1", PStr "Rocq")
  /\ fst (get_channel_id_by_name scripted "rocq"
            (init [Ok (PDict [("items", PList [video_result "v1" "A video"])])]))
     = Ok (PNone, PNone)
  /\ fst (get_channel_id_by_name scripted "rocq" (init [Ok (PDict [])]))
     = Ok (PNone, PNone).
Proof.
  split; [| split].
  - destruct (get_channel_id_by_name_result _ scripted
                [Ok (PDict [("items", PList [video_result "v1" "A video";
                                             channel_result "UC1" "Rocq"])])]
                [] "rocq" _ _ eq_refl eq_refl eq_refl) as [Hfound _].
    destruct (Hfound (channel_result "UC1" "Rocq") eq_refl)
      as (channelId & title & [= <- <-] & Hrun).
    exact Hrun.
  - destruct (get_channel_id_by_name_result _ scripted
                [Ok (PDict [("items", PList [video_result "v1" "A video"])])]
                [] "rocq" _ _ eq_refl eq_refl eq_refl) as (_ & Hnone & _).
    apply Hnone. reflexivity.
  - destruct (get_channel_id_by_name_result _ scripted [Ok (PDict [])]
                [] "rocq" _ _ eq_refl eq_refl eq_refl) as (_ & _ & Hempty).
    apply Hempty. reflexivity.
Defined.

Lemma playlist_page_fault {St} (youtube : client St) (playlist_id : string)
    (pageToken : option pyval) (video_ids : list pyval) (w : world St)
    (e : exn) (s' : St) :
  youtube (playlist_request playlist_id pageToken) (remote w) = (Raise e, s') ->
  playlist_page youtube playlist_id pageToken video_ids w
  = (Raise e,
     {| remote := s';
        calls := calls w ++ [(playlist_request playlist_id pageToken, Raise e)];
        stdout := stdout w |}).
Proof.
  intros Hreq. unfold playlist_page.
  erewrite bind_raise by (apply execute_eq; exact Hreq). reflexivity.
Qed.

Lemma while_next_page_fault {St} (youtube : client St) (playlist_id : string) :
  forall pages t video_ids (w : world St) fuel e,
    faults_after youtube playlist_id (Some t) (remote w) pages e ->
    t <> PNone ->
    Forall (fun page => page_video_ids page <> None) pages ->
    List.length pages < fuel ->
    exists w',
      while_next_page youtube fuel playlist_id t video_ids w
      = Some (Raise e, w')
      /\ map snd (calls w') = map snd (calls w) ++ map Ok pages ++ [Raise e].
Proof.
  induction pages as [| page rest IH];
    intros t acc w fuel e Hfault Ht Hpages Hfuel;
    (destruct fuel as [| fuel]; [simpl in Hfuel; lia |]);
    rewrite while_next_page_step by assumption.
  - destruct Hfault as (s' & Hreq).
    rewrite (playlist_page_fault _ _ _ _ _ _ _ Hreq).
    eexists. split; [reflexivity |]. simpl. rewrite map_app. reflexivity.
  - destruct Hfault as (s' & t' & Hreq & Htok & Hfault).
    inversion Hpages as [| ? ? Hpage Hrest]; subst.
    destruct (page_video_ids page) as [ids|] eqn:Eids; [| congruence].
    rewrite (playlist_page_ok _ _ _ _ _ _ _ _ Hreq Eids), Htok.
    pose proof (continuation_token_not_none _ _ Htok) as Ht'.
    destruct (IH t' (acc ++ ids)
                 {| remote := s';
                    calls := calls w ++
                      [(playlist_request playlist_id (Some t), Ok page)];
                    stdout := stdout w |} fuel e Hfault Ht' Hrest)
      as (w' & Hrun & Hcalls); [simpl in Hfuel; lia |].
    exists w'. split; [exact Hrun |].
    rewrite Hcalls. simpl. rewrite map_app, <- app_assoc. reflexivity.
Qed.

Lemma get_video_ids_fault {St} (youtube : client St) (playlist_id : string)
    (s : St) (pages : list pyval) (e : exn) (fuel : nat) :
  faults_after youtube playlist_id None s pages e ->
  Forall (fun page => page_video_ids page <> None) pages ->
  List.length pages <= fuel ->
  exists w',
    get_video_ids youtube fuel playlist_id (init s) = Some (Raise e, w')
    /\ map snd (calls w') = map Ok pages ++ [Raise e].
Proof.
  intros Hfault Hpages Hfuel. unfold get_video_ids.
  destruct pages as [| page rest].
  - destruct Hfault as (s' & Hreq).
    rewrite (playlist_page_fault youtube playlist_id None [] (init s) _ _ Hreq).
    eexists. split; reflexivity.
  - destruct Hfault as (s' & t' & Hreq & Htok & Hfault).
    inversion Hpages as [| ? ? Hpage Hrest]; subst.
    destruct (page_video_ids page) as [ids|] eqn:Eids; [| congruence].
    rewrite (playlist_page_ok youtube playlist_id None [] (init s) _ _ _
               Hreq Eids), Htok.
    pose proof (continuation_token_not_none _ _ Htok) as Ht'.
    destruct (while_next_page_fault youtube playlist_id rest t' ([] ++ ids)
                {| remote := s';
                   calls := calls (init s) ++
                     [(playlist_request playlist_id None, Ok page)];
                   stdout := stdout (init s) |} fuel e Hfault Ht' Hrest)
      as (w' & Hrun & Hcalls); [simpl in Hfuel; lia |].
    exists w'. split; [exact Hrun |]. rewrite Hcalls. reflexivity.
Qed.

(** C8.  In [get_channel_stats], [get_video_ids] and [get_video_details] a
    remote call that faults ends the run: the operation raises the very
    exception the call raised, returns no table or list, and sends no
    further request, the faulting call being the last of the log.  A page
    walk does return then: when the service serves some pages and faults on
    the next request, [get_video_ids] raises that fault after requesting
    each page once, as soon as its loop is given one iteration per page. *)
Theorem remote_faults_propagate :
  forall St (youtube : client St) (s : St),
    (forall channel_ids r w',
        get_channel_stats youtube channel_ids (init s) = (r, w') ->
        propagates r (calls w'))
    /\ (forall fuel playlist_id r w',
           get_video_ids youtube fuel playlist_id (init s) = Some (r, w') ->
           propagates r (calls w'))
    /\ (forall video_ids r w',
           get_video_details youtube video_ids (init s) = (r, w') ->
           propagates r (calls w'))
    /\ (forall fuel playlist_id pages e,
           faults_after youtube playlist_id None s pages e ->
           Forall (fun page => page_video_ids page <> None) pages ->
           List.length pages <= fuel ->
           exists w',
             get_video_ids youtube fuel playlist_id (init s)
             = Some (Raise e, w')
             /\ map snd (calls w') = map Ok pages ++ [Raise e]).
Proof.
  intros St youtube s. split; [| split; [| split]].
  - intros channel_ids r w' Hrun. apply (fail_fast_init s).
    pose proof (FailFast_get_channel_stats youtube channel_ids (init s)) as H.
    rewrite Hrun in H. exact H.
  - intros fuel playlist_id r w' Hrun. apply (fail_fast_init s).
    eapply fail_fast_get_video_ids, Hrun.
  - intros video_ids r w' Hrun. apply (fail_fast_init s).
    pose proof (FailFast_get_video_details youtube video_ids (init s)) as H.
    rewrite Hrun in H. exact H.
  - intros fuel playlist_id pages e. apply get_video_ids_fault.
Qed.

Lemma remote_faults_propagate_witness :
  fst (get_channel_stats scripted ["UC1"; "UC2"]
         (init [Raise (HttpError 403 "quotaExceeded")]))
  = Raise (HttpError 403 "quotaExceeded")
  /\ option_map fst
       (get_video_ids scripted 5 "PL"
          (init [Ok (page_of ["v1"; "v2"] (Some "A"));
                 Raise (HttpError 500 "backendError");
                 Ok (page_of ["v3"] None)]))
     = Some (Raise (HttpError 500 "backendError"))
  /\ fst (get_video_details scripted (numbered_ids 60)
            (init [Ok (videos_response (batch (numbered_ids 60) 0));
                   Raise (OtherException "connection reset");
                   Ok (videos_response [])]))
     = Raise (OtherException "connection reset")
  /\ exists w',
      get_video_ids scripted 1 "PL"
        (init [Ok (page_of ["v1"; "v2"] (Some "A"));
               Raise (HttpError 429 "rateLimitExceeded");
               Ok (page_of ["v3"] None)])
      = Some (Raise (HttpError 429 "rateLimitExceeded"), w')
      /\ map snd (calls w')
         = [Ok (page_of ["v1"; "v2"] (Some "A"));
            Raise (HttpError 429 "rateLimitExceeded")].
Proof.
  destruct (remote_faults_propagate _ scripted
              [Raise (HttpError 403 "quotaExceeded")]) as (Hstats & _ & _ & _).
  destruct (remote_faults_propagate _ scripted
              [Ok (page_of ["v1"; "v2"] (Some "A"));
               Raise (HttpError 500 "backendError");
               Ok (page_of ["v3"] None)]) as (_ & Hids & _ & _).
  destruct (remote_faults_propagate _ scripted
              [Ok (videos_response (batch (numbered_ids 60) 0));
               Raise (OtherException "connection reset");
               Ok (videos_response [])]) as (_ & _ & Hdetails & _).
  destruct (remote_faults_propagate _ scripted
              [Ok (page_of ["v1"; "v2"] (Some "A"));
               Raise (HttpError 429 "rateLimitExceeded");
               Ok (page_of ["v3"] None)]) as (_ & _ & _ & Hwalk).
  split; [| split; [| split]].
  - destruct (get_channel_stats scripted ["UC1"; "UC2"] _) as [r w'] eqn:Hrun.
    destruct (Hstats _ _ _ Hrun
                (ChannelsList "snippet,contentDetails,statistics" "UC1,UC2")
                (HttpError 403 "quotaExceeded")) as [Hr _]; [| exact Hr].
    vm_compute in Hrun. injection Hrun as _ <-. simpl. tauto.
  - destruct (get_video_ids scripted 5 "PL" _) as [[r w']|] eqn:Hrun;
      [| vm_compute in Hrun; discriminate].
    destruct (Hids _ _ _ _ Hrun
                (playlist_request "PL" (Some (PStr "A")))
                (HttpError 500 "backendError")) as [Hr _];
      [| simpl; rewrite Hr; reflexivity].
    vm_compute in Hrun. injection Hrun as _ <-. simpl. tauto.
  - destruct (get_video_details scripted (numbered_ids 60) _) as [r w'] eqn:Hrun.
    destruct (Hdetails _ _ _ Hrun
                (videos_request (batch (numbered_ids 60) 1))
                (OtherException "connection reset")) as [Hr _]; [| exact Hr].
    vm_compute in Hrun. injection Hrun as _ <-. vm_compute. tauto.
  - apply (Hwalk 1 "PL" [page_of ["v1"; "v2"] (Some "A")]
                 (HttpError 429 "rateLimitExceeded")).
    + simpl. eexists. eexists. split; [reflexivity |].
      split; [reflexivity |]. eexists. reflexivity.
    + repeat constructor; discriminate.
    + simpl. lia.
Defined.

Lemma pages_have_ids (pages : list pyval) :
  Forall (fun page => page_video_ids page <> None) pages ->
  exists idss,
    Forall2 (fun page ids => page_video_ids page = Some ids) pages idss.
Proof.
  induction 1 as [| page pages Hpage _ (idss & IH)].
  - exists []. constructor.
  - destruct (page_video_ids page) as [ids|] eqn:E; [| congruence].
    exists (ids :: idss). constructor; assumption.
Qed.

Lemma countdown_serves (playlist_id : string) :
  forall n pageToken,
    serves countdown playlist_id pageToken n (countdown_pages n).
Proof.
  induction n as [| n IH]; intros pageToken.
  - exists 0. split; reflexivity.
  - exists n. split; [reflexivity |].
    destruct n; eexists; (split; [reflexivity | apply IH]).
Qed.

Lemma countdown_pages_ok (n : nat) :
  Forall (fun page => page_video_ids page <> None) (countdown_pages n).
Proof.
  induction n; simpl; repeat constructor; try assumption;
    vm_compute; discriminate.
Qed.

Lemma countdown_pages_length (n : nat) : List.length (countdown_pages n) = S n.
Proof. induction n; simpl; congruence. Qed.

(** C9.  When the service serves the collection as a chain of [n] pages, the
    last one the first without continuation token, [get_video_ids] returns
    after exactly [n] requests: its loop, entered after the first page, runs
    [n - 1] times, no fewer.  The operation has no page limit of its own:
    for every [n] some service makes it send [n + 1] requests before it
    returns. *)
Theorem get_video_ids_terminates :
  forall St (youtube : client St) (s : St) (playlist_id : string)
         (pages : list pyval),
    serves youtube playlist_id None s pages ->
    Forall (fun page => page_video_ids page <> None) pages ->
    (forall fuel,
        List.length pages <= S fuel ->
        exists video_ids w',
          get_video_ids youtube fuel playlist_id (init s)
          = Some (Ok video_ids, w')
          /\ List.length (calls w') = List.length pages)
    /\ (forall fuel,
           S fuel < List.length pages ->
           get_video_ids youtube fuel playlist_id (init s) = None)
    /\ (forall n, exists video_ids w',
           get_video_ids countdown n playlist_id (init n)
           = Some (Ok video_ids, w')
           /\ List.length (calls w') = S n).
Proof.
  assert (Hrun : forall St (youtube : client St) s playlist_id pages,
             serves youtube playlist_id None s pages ->
             Forall (fun page => page_video_ids page <> None) pages ->
             forall fuel,
               List.length pages <= S fuel ->
               exists video_ids w',
                 get_video_ids youtube fuel playlist_id (init s)
                 = Some (Ok video_ids, w')
                 /\ List.length (calls w') = List.length pages).
  { intros St youtube s playlist_id pages Hserves Hpages fuel Hfuel.
    destruct (pages_have_ids pages Hpages) as [idss Hids].
    destruct (get_video_ids_ok youtube playlist_id s pages idss fuel
                Hserves Hids) as [Hok _].
    destruct (Hok Hfuel) as (w' & Heq & Hlen). eauto. }
  intros St youtube s playlist_id pages Hserves Hpages.
  split; [apply Hrun; assumption |]. split.
  - intros fuel Hfuel.
    destruct (pages_have_ids pages Hpages) as [idss Hids].
    apply (get_video_ids_ok youtube playlist_id s pages idss fuel Hserves Hids).
    exact Hfuel.
  - intros n. rewrite <- (countdown_pages_length n).
    apply Hrun.
    + apply countdown_serves.
    + apply countdown_pages_ok.
    + rewrite countdown_pages_length. lia.
Qed.

Lemma get_video_ids_terminates_witness :
  (exists video_ids w',
      get_video_ids three_pages 2 "PL" (init tt) = Some (Ok video_ids, w')
      /\ List.length (calls w') = 3)
  /\ get_video_ids three_pages 1 "PL" (init tt) = None.
Proof.
  destruct (get_video_ids_terminates unit three_pages tt "PL"
              [page_of ["v1"; "v2"] (Some "A"); page_of ["v2"; "v3"] (Some "B");
               page_of ["v4"] None]) as (Hok & Hout & _).
  - simpl. repeat (eexists; split; [reflexivity |]). reflexivity.
  - repeat constructor; discriminate.
  - split; [apply Hok; simpl; lia | apply Hout; simpl; lia].
Defined.

Lemma py_range_cons (n : nat) :
  0 < n -> exists starts, py_range 0 n 50 = 0 :: starts.
Proof.
  intros Hn. rewrite py_range_50, batch_count_step by assumption.
  rewrite <- cons_seq, map_cons. eauto.
Qed.

Lemma video_rows_missing_id (before after : list pyval) (d : dict) :
  forallb video_item_ok before = true ->
  dict_lookup "id" d = None ->
  forall all_video_info,
    video_rows (before ++ PDict d :: after) all_video_info
    = Raise (KeyError "id").
Proof.
  intros Hbefore Hid. induction before as [| video rest IH]; intros acc; simpl.
  - unfold build_video_info. simpl. rewrite Hid. reflexivity.
  - simpl in Hbefore. apply andb_true_iff in Hbefore as [Hvideo Hrest].
    rewrite build_video_info_ok by assumption. simpl. apply IH, Hrest.
Qed.

(** C10.  Only the twelve attributes are defaulted.  An item without [id]
    makes [build_video_info], and with it [get_video_details], raise
    [KeyError] for [id]; a batch response without [items] makes
    [get_video_details] raise [KeyError] for [items]. *)
Theorem get_video_details_unguarded_keys :
  (forall d : dict,
      dict_lookup "id" d = None ->
      build_video_info (PDict d) = Raise (KeyError "id"))
  /\ (forall St (youtube : client St) (s s' : St) (video_ids : list string)
             (d : dict),
         video_ids <> [] ->
         youtube (videos_request (batch video_ids 0)) s = (Ok (PDict d), s') ->
         dict_lookup "items" d = None ->
         fst (get_video_details youtube video_ids (init s))
         = Raise (KeyError "items"))
  /\ (forall St (youtube : client St) (s s' : St) (video_ids : list string)
             (response : pyval) (before after : list pyval) (d : dict),
         video_ids <> [] ->
         youtube (videos_request (batch video_ids 0)) s = (Ok response, s') ->
         response_items response = Some (before ++ PDict d :: after) ->
         forallb video_item_ok before = true ->
         dict_lookup "id" d = None ->
         fst (get_video_details youtube video_ids (init s))
         = Raise (KeyError "id")).
Proof.
  assert (Hstart : forall video_ids : list string,
             video_ids <> [] ->
             exists starts,
               py_range 0 (List.length video_ids) 50 = 0 :: starts).
  { intros video_ids Hne. apply py_range_cons.
    destruct video_ids; [congruence | simpl; lia]. }
  split; [| split].
  - intros d Hid. unfold build_video_info. simpl. rewrite Hid. reflexivity.
  - intros St youtube s s' video_ids d Hne Hreq Hitems.
    unfold get_video_details.
    destruct (Hstart video_ids Hne) as [starts ->]. cbn [for_batches]. unfold bind at 1.
    erewrite bind_ok by (apply execute_eq; exact Hreq).
    unfold bind, lift. simpl py_getitem. rewrite Hitems. reflexivity.
  - intros St youtube s s' video_ids response before after d
           Hne Hreq Hitems Hbefore Hid.
    unfold get_video_details.
    destruct (Hstart video_ids Hne) as [starts ->]. cbn [for_batches]. unfold bind at 1.
    erewrite bind_ok by (apply execute_eq; exact Hreq).
    unfold response_items in Hitems.
    destruct response as [| | | | | |rd]; try discriminate.
    unfold bind, lift. simpl py_getitem.
    destruct (dict_lookup "items" rd) as [[| | | | |l |]|]; try discriminate.
    injection Hitems as ->. cbn [rbind py_iter].
    rewrite (video_rows_missing_id _ _ _ Hbefore Hid). reflexivity.
Qed.

Lemma get_video_details_unguarded_keys_witness :
  build_video_info (PDict [("snippet", PDict [("title", PStr "t")])])
  = Raise (KeyError "id")
  /\ fst (get_video_details scripted ["v1"]
            (init [Ok (PDict [("kind", PStr "youtube#videoListResponse")])]))
     = Raise (KeyError "items")
  /\ fst (get_video_details scripted ["v1"; "v2"]
            (init [Ok (PDict [("items",
                               PList [video_item "v1";
                                      PDict [("snippet",
                                              PDict [("title", PStr "t")])]])])]))
     = Raise (KeyError "id").
Proof.
  destruct get_video_details_unguarded_keys as (Hitem & Hitems & Hid).
  split; [| split].
  - apply Hitem. reflexivity.
  - eapply (Hitems _ scripted); [discriminate | reflexivity | reflexivity].
  - eapply (Hid _ scripted _ _ _ _ [video_item "v1"] []);
      [discriminate | reflexivity | reflexivity | reflexivity | reflexivity].
Defined.

(** ** Where the shapes are needed *)

(** A group that is present but is not an object is not defaulted: only
    [KeyError] is caught. *)
Example build_video_info_null_group :
  build_video_info (PDict [("id", PStr "v1"); ("snippet", PNone)])
  = Raise (TypeError "object is not subscriptable").
Proof. reflexivity. Qed.

(** A search result without [id] raises inside the [try] block, and so
    reaches the caller as the [NameError] of the first [except] clause. *)
Example get_channel_id_by_name_malformed_item :
  fst (get_channel_id_by_name scripted "rocq"
         (init [Ok (PDict [("items", PList [PDict []])])]))
  = Raise (NameError "HttpError").
Proof. reflexivity. Qed.

(** With [HttpError] in scope the same fault is absorbed and reported. *)
Example get_channel_id_by_name_in_absorbs :
  get_channel_id_by_name_in scripted ("HttpError" :: module_globals) "rocq"
    (init [Raise (HttpError 503 "backend unavailable")])
  = (Ok (PNone, PNone),
     {| remote := [];
        calls := [(SearchList "rocq" "id,snippet" 1 "channel",
                   Raise (HttpError 503 "backend unavailable"))];
        stdout := ["An HTTP error 503 occurred:" ++ newline
                   ++ "backend unavailable"]%string |}).
Proof. reflexivity. Qed.

(** * Further properties of the four functions *)

(** ** Tables built from records with the same keys *)

Lemma add_columns_fresh (keys : list string) :
  forall cols, NoDup (cols ++ keys) -> add_columns cols keys = cols ++ keys.
Proof.
  induction keys as [| k keys IH]; intros cols Hnd; simpl.
  - rewrite app_nil_r. reflexivity.
  - pose proof (NoDup_remove_2 _ _ _ Hnd) as Hk.
    destruct (existsb (String.eqb k) cols) eqn:E.
    + apply existsb_exists in E as (k' & Hin & Heq).
      apply String.eqb_eq in Heq. subst k'.
      exfalso. apply Hk, in_or_app. left. exact Hin.
    + rewrite IH; rewrite <- app_assoc; [reflexivity | exact Hnd].
Qed.

Lemma add_columns_known (keys : list string) :
  forall cols, (forall k, In k keys -> In k cols) -> add_columns cols keys = cols.
Proof.
  induction keys as [| k keys IH]; intros cols Hin; simpl; [reflexivity |].
  assert (E : existsb (String.eqb k) cols = true).
  { apply existsb_exists. exists k. split; [apply Hin; left; reflexivity |].
    apply String.eqb_refl. }
  rewrite E. apply IH. intros k' Hk'. apply Hin. right. exact Hk'.
Qed.

Lemma fold_columns_known (cols : list string) (records : list dict) :
  Forall (fun r => dict_keys r = cols) records ->
  fold_left (fun cols r => add_columns cols (dict_keys r)) records cols = cols.
Proof.
  induction 1 as [| r records Hr _ IH]; simpl; [reflexivity |].
  rewrite Hr, add_columns_known by auto. exact IH.
Qed.

(** [pd.DataFrame] of at least one record, all with the same distinct keys:
    the keys are the columns. *)
Lemma pd_DataFrame_columns_uniform (cols : list string) (records : list dict) :
  NoDup cols ->
  records <> [] ->
  Forall (fun r => dict_keys r = cols) records ->
  df_columns (pd_DataFrame records) = cols.
Proof.
  intros Hnd Hne Hall. unfold pd_DataFrame. simpl.
  destruct records as [| r records]; [congruence |].
  inversion Hall as [| ? ? Hr Hrest]; subst. simpl.
  rewrite (add_columns_fresh (dict_keys r) []) by exact Hnd.
  apply fold_columns_known, Hrest.
Qed.

(** ** [get_channel_stats] *)

Section ChannelStats.

Context {St : Type}.
Variable youtube : client St.

Lemma lookup3_getitem (obj : pyval) (k1 k2 k3 : string) (v : pyval) :
  lookup3 obj k1 k2 k3 = Some v ->
  exists g1 g2,
    py_getitem obj k1 = Ok g1 /\ py_getitem g1 k2 = Ok (PDict g2)
    /\ py_getitem (PDict g2) k3 = Ok v.
Proof.
  destruct obj as [| | | | | |d]; simpl; try discriminate.
  destruct (dict_lookup k1 d) as [g1|]; [| discriminate].
  intros H. destruct (lookup2_getitem _ _ _ _ H) as (g2 & H2 & H3).
  exists g1, g2. repeat split; assumption.
Qed.

Lemma channel_keys (item : pyval) (r : dict) :
  channel_record item = Some r -> dict_keys r = channel_columns.
Proof.
  unfold channel_record.
  repeat match goal with
         | |- context [match ?x with Some _ => _ | None => _ end] =>
             destruct x; try discriminate
         end.
  intros [= <-]. reflexivity.
Qed.

Lemma channel_rows_ok (items : list pyval) :
  forall records all_data,
    all_some (map channel_record items) = Some records ->
    channel_rows items all_data = Ok (all_data ++ records).
Proof.
  induction items as [| item rest IH]; simpl; intros records acc H.
  - injection H as <-. rewrite app_nil_r. reflexivity.
  - destruct (channel_record item) as [r|] eqn:Er; [| discriminate].
    destruct (all_some _) as [records'|] eqn:Erest; [| discriminate].
    injection H as <-.
    unfold channel_record in Er.
    destruct (lookup2 item "snippet" "title") as [t|] eqn:E1; [| discriminate].
    destruct (lookup2 item "statistics" "subscriberCount") as [sc|] eqn:E2;
      [| discriminate].
    destruct (lookup2 item "statistics" "viewCount") as [vc|] eqn:E3;
      [| discriminate].
    destruct (lookup2 item "statistics" "videoCount") as [nc|] eqn:E4;
      [| discriminate].
    destruct (lookup3 item "contentDetails" "relatedPlaylists" "uploads")
      as [u|] eqn:E5; [| discriminate].
    injection Er as <-.
    destruct (lookup2_getitem _ _ _ _ E1) as (sn & Hsn & Ht).
    destruct (lookup2_getitem _ _ _ _ E2) as (st & Hst & Hsc).
    destruct (lookup2_getitem _ _ _ _ E3) as (st' & Hst' & Hvc).
    destruct (lookup2_getitem _ _ _ _ E4) as (st'' & Hst'' & Hnc).
    destruct (lookup3_getitem _ _ _ _ _ E5) as (cd & rp & Hcd & Hrp & Hu).
    rewrite Hst in Hst', Hst''. injection Hst' as <-. injection Hst'' as <-.
    rewrite Hsn. cbn [rbind]. rewrite Ht. cbn [rbind].
    rewrite Hst. cbn [rbind]. rewrite Hsc, Hvc, Hnc. cbn [rbind].
    rewrite Hcd. cbn [rbind]. rewrite Hrp. cbn [rbind]. rewrite Hu. cbn [rbind].
    rewrite (IH records') by reflexivity. rewrite <- app_assoc. reflexivity.
Qed.

Lemma rbind_ok_inv {A B} (r : result A) (k : A -> result B) (b : B) :
  rbind r k = Ok b -> exists a, r = Ok a /\ k a = Ok b.
Proof. destruct r as [a | e]; simpl; [eauto | discriminate]. Qed.

Lemma py_getitem_ok_inv (obj : pyval) (k : string) (v : pyval) :
  py_getitem obj k = Ok v -> exists d, obj = PDict d /\ dict_lookup k d = Some v.
Proof.
  destruct obj as [| | | | | |d]; simpl; try discriminate.
  destruct (dict_lookup k d) as [v'|] eqn:E; [| discriminate].
  intros [= <-]. exists d. split; [reflexivity | exact E].
Qed.

Lemma channel_rows_ok_inv (items : list pyval) :
  forall rows all_data,
    channel_rows items all_data = Ok rows ->
    exists records,
      all_some (map channel_record items) = Some records
      /\ rows = all_data ++ records.
Proof.
  induction items as [| item rest IH]; simpl; intros rows acc H.
  - injection H as <-. exists []. rewrite app_nil_r. split; reflexivity.
  - apply rbind_ok_inv in H as (snippet & Hsn & H).
    apply rbind_ok_inv in H as (title & Ht & H).
    apply rbind_ok_inv in H as (st & Hst & H).
    apply rbind_ok_inv in H as (sc & Hsc & H).
    apply rbind_ok_inv in H as (st' & Hst' & H).
    apply rbind_ok_inv in H as (vc & Hvc & H).
    apply rbind_ok_inv in H as (st'' & Hst'' & H).
    apply rbind_ok_inv in H as (nc & Hnc & H).
    apply rbind_ok_inv in H as (cd & Hcd & H).
    apply rbind_ok_inv in H as (rp & Hrp & H).
    apply rbind_ok_inv in H as (u & Hu & H).
    rewrite Hst in Hst', Hst''. injection Hst' as <-. injection Hst'' as <-.
    apply py_getitem_ok_inv in Hsn as (d & -> & Hsn).
    apply py_getitem_ok_inv in Ht as (sn & -> & Ht).
    apply py_getitem_ok_inv in Hst as (d' & [= <-] & Hst).
    apply py_getitem_ok_inv in Hsc as (std & -> & Hsc).
    apply py_getitem_ok_inv in Hvc as (std' & [= <-] & Hvc).
    apply py_getitem_ok_inv in Hnc as (std' & [= <-] & Hnc).
    apply py_getitem_ok_inv in Hcd as (d' & [= <-] & Hcd).
    apply py_getitem_ok_inv in Hrp as (cdd & -> & Hrp).
    apply py_getitem_ok_inv in Hu as (rpd & -> & Hu).
    destruct (IH _ _ H) as (records & Hrest & ->).
    rewrite Hrest. unfold channel_record, lookup3, lookup2.
    rewrite Hsn, Ht, Hst, Hsc, Hvc, Hnc, Hcd, Hrp, Hu.
    eexists. split; [reflexivity |]. rewrite <- app_assoc. reflexivity.
Qed.

Lemma channel_items_of (response : pyval) (items : list pyval) :
  response_items response = Some items ->
  (let? items := py_getitem response "items" in py_iter items) = Ok items.
Proof.
  unfold response_items.
  destruct response as [| | | | | |d]; try discriminate. simpl.
  destruct (dict_lookup "items" d) as [[| | | | |l |]|]; try discriminate.
  intros [= <-]. reflexivity.
Qed.

Lemma get_channel_stats_run (channel_ids : list string) (s s' : St)
    (response : pyval) (items : list pyval) :
  youtube (channels_request channel_ids) s = (Ok response, s') ->
  response_items response = Some items ->
  get_channel_stats youtube channel_ids (init s)
  = (let? all_data := channel_rows items [] in Ok (pd_DataFrame all_data),
     {| remote := s';
        calls := [(channels_request channel_ids, Ok response)];
        stdout := [] |}).
Proof.
  intros Hreq Hitems. unfold get_channel_stats.
  erewrite bind_ok by (apply execute_eq; exact Hreq).
  unfold bind, lift, ret. rewrite (channel_items_of _ _ Hitems).
  destruct (channel_rows items []); reflexivity.
Qed.

End ChannelStats.

Lemma channel_columns_NoDup : NoDup channel_columns.
Proof.
  unfold channel_columns.
  repeat (constructor; [simpl; intuition discriminate |]). constructor.
Qed.

Lemma all_some_length {A} (l : list (option A)) :
  forall r, all_some l = Some r -> List.length r = List.length l.
Proof.
  induction l as [| [a|] l IH]; simpl; intros r H; try discriminate.
  - injection H as <-. reflexivity.
  - destruct (all_some l) as [r'|]; [| discriminate].
    injection H as <-. simpl. f_equal. apply IH. reflexivity.
Qed.

Lemma all_some_Forall2 {A B} (f : A -> option B) (l : list A) :
  forall r, all_some (map f l) = Some r -> Forall2 (fun a b => f a = Some b) l r.
Proof.
  induction l as [| a l IH]; simpl; intros r H.
  - injection H as <-. constructor.
  - destruct (f a) as [b|] eqn:E; [| discriminate].
    destruct (all_some (map f l)) as [r'|]; [| discriminate].
    injection H as <-. constructor; [exact E | apply IH; reflexivity].
Qed.

Lemma Forall2_in_some {A B} (f : A -> option B) (l : list A) (r : list B)
    (a : A) :
  Forall2 (fun a b => f a = Some b) l r -> In a l -> f a <> None.
Proof.
  induction 1 as [| a' b l' r' Ha _ IH]; intros Hin; [contradiction |].
  destruct Hin as [-> | Hin]; [congruence | exact (IH Hin)].
Qed.

(** X1.  When the service answers with items that each have the five
    fields, [get_channel_stats] sends the one request and hands
    [pd.DataFrame] one record per item, in response order, each holding the
    item's title, its three counts as the service sent them and its uploads
    playlist under the keys [channelName], [subscribers], [views],
    [totalVideos], [playlistId]; the table has one row per item and, with at
    least one item, exactly these five columns in this order. *)
Theorem get_channel_stats_table :
  forall St (youtube : client St) (s s' : St) (channel_ids : list string)
         (response : pyval) (items : list pyval) (records : list dict),
    youtube (ChannelsList "snippet,contentDetails,statistics"
                          (String.concat "," channel_ids)) s
    = (Ok response, s') ->
    response_items response = Some items ->
    all_some (map channel_record items) = Some records ->
    get_channel_stats youtube channel_ids (init s)
    = (Ok (pd_DataFrame records),
       {| remote := s';
          calls := [(ChannelsList "snippet,contentDetails,statistics"
                                  (String.concat "," channel_ids),
                     Ok response)];
          stdout := [] |})
    /\ List.length (df_rows (pd_DataFrame records)) = List.length items
    /\ (items <> [] ->
        df_columns (pd_DataFrame records)
        = ["channelName"; "subscribers"; "views"; "totalVideos"; "playlistId"]).
Proof.
  intros St youtube s s' channel_ids response items records Hreq Hitems Hrec.
  split; [| split].
  - rewrite (get_channel_stats_run youtube channel_ids s s' response items
               Hreq Hitems).
    rewrite (channel_rows_ok items records [] Hrec). reflexivity.
  - rewrite pd_DataFrame_rows, (all_some_length _ _ Hrec), length_map.
    reflexivity.
  - intros Hne. apply (pd_DataFrame_columns_uniform channel_columns).
    + apply channel_columns_NoDup.
    + intros ->. apply all_some_length in Hrec. rewrite length_map in Hrec.
      destruct items; [congruence | discriminate].
    + apply all_some_Forall2 in Hrec.
      clear Hne Hitems Hreq.
      induction Hrec as [| item r items' records' Hr _ IH]; constructor.
      * eapply channel_keys, Hr.
      * apply IH.
Qed.

Lemma get_channel_stats_table_witness :
  fst (get_channel_stats scripted ["UC1"; "UC2"]
         (init [Ok (PDict [("items",
                            PList [channel_item "one" "10" "200" "3" "UU1";
                                   channel_item "two" "5" "90" "2" "UU2"])])]))
  = Ok (pd_DataFrame
          [[("channelName", PStr "one"); ("subscribers", PStr "10");
            ("views", PStr "200"); ("totalVideos", PStr "3");
            ("playlistId", PStr "UU1")];
           [("channelName", PStr "two"); ("subscribers", PStr "5");
            ("views", PStr "90"); ("totalVideos", PStr "2");
            ("playlistId", PStr "UU2")]])
  /\ df_columns
       (pd_DataFrame
          [[("channelName", PStr "one"); ("subscribers", PStr "10");
            ("views", PStr "200"); ("totalVideos", PStr "3");
            ("playlistId", PStr "UU1")];
           [("channelName", PStr "two"); ("subscribers", PStr "5");
            ("views", PStr "90"); ("totalVideos", PStr "2");
            ("playlistId", PStr "UU2")]])
     = ["channelName"; "subscribers"; "views"; "totalVideos"; "playlistId"].
Proof.
  destruct (get_channel_stats_table _ scripted
              [Ok (PDict [("items",
                           PList [channel_item "one" "10" "200" "3" "UU1";
                                  channel_item "two" "5" "90" "2" "UU2"])])]
              [] ["UC1"; "UC2"] _ _ _ eq_refl eq_refl eq_refl)
    as (Hrun & _ & Hcols).
  split.
  - rewrite Hrun. reflexivity.
  - apply Hcols. discriminate.
Defined.

(** X2.  [get_channel_stats] defaults nothing: when some item of the
    response lacks one of the five fields, the call raises and returns no
    table, whatever the other items are. *)
Theorem get_channel_stats_no_defaulting :
  forall St (youtube : client St) (s s' : St) (channel_ids : list string)
         (response : pyval) (items : list pyval) (item : pyval),
    youtube (channels_request channel_ids) s = (Ok response, s') ->
    response_items response = Some items ->
    In item items ->
    channel_record item = None ->
    exists e, fst (get_channel_stats youtube channel_ids (init s)) = Raise e.
Proof.
  intros St youtube s s' channel_ids response items item Hreq Hitems Hin Hnone.
  rewrite (get_channel_stats_run youtube channel_ids s s' response items
             Hreq Hitems). simpl.
  destruct (channel_rows items []) as [rows | e] eqn:Hrows;
    [| exists e; reflexivity].
  exfalso.
  destruct (channel_rows_ok_inv _ _ _ Hrows) as (records & Hall & _).
  apply all_some_Forall2 in Hall.
  exact (Forall2_in_some _ _ _ _ Hall Hin Hnone).
Qed.

Lemma get_channel_stats_no_defaulting_witness :
  fst (get_channel_stats scripted ["UC1"; "UC9"]
         (init [Ok (PDict [("items",
                            PList [channel_item "one" "10" "200" "3" "UU1";
                                   hidden_subscribers_item])])]))
  = Raise (KeyError "subscriberCount").
Proof.
  destruct (get_channel_stats_no_defaulting _ scripted
              [Ok (PDict [("items",
                           PList [channel_item "one" "10" "200" "3" "UU1";
                                  hidden_subscribers_item])])]
              [] ["UC1"; "UC9"] _ _ hidden_subscribers_item
              eq_refl eq_refl (or_intror (or_introl eq_refl)) eq_refl)
    as [e He].
  rewrite He. vm_compute in He. injection He as <-. reflexivity.
Defined.

(** X3.  Whatever the number of identifiers and whatever the service
    answers, [get_channel_stats] sends exactly one request, whose [id] is
    the identifiers joined by commas, and prints nothing: it neither batches
    nor paginates nor retries. *)
Theorem get_channel_stats_one_request :
  forall St (youtube : client St) (s : St) (channel_ids : list string),
    calls (snd (get_channel_stats youtube channel_ids (init s)))
    = [(ChannelsList "snippet,contentDetails,statistics"
                     (String.concat "," channel_ids),
        fst (youtube (ChannelsList "snippet,contentDetails,statistics"
                                   (String.concat "," channel_ids)) s))]
    /\ stdout (snd (get_channel_stats youtube channel_ids (init s))) = [].
Proof.
  intros St youtube s channel_ids.
  unfold get_channel_stats, bind, lift, ret, execute, py_join. simpl.
  destruct (youtube _ s) as [[resp | e] s']; simpl.
  - destruct (let? items := py_getitem resp "items" in py_iter items);
      [destruct (channel_rows _ _) |]; split; reflexivity.
  - split; reflexivity.
Qed.

(** ** [get_channel_id_by_name] *)

(** X4.  Whatever the service does, [get_channel_id_by_name] sends exactly
    one request, the search for the name with [part] [id,snippet],
    [maxResults] 1 and [type] [channel], and prints nothing; it ends with a
    pair or with the [NameError] for [HttpError], never with any other
    exception. *)
Theorem get_channel_id_by_name_effects :
  forall St (youtube : client St) (s : St) (channel_name : string),
    calls (snd (get_channel_id_by_name youtube channel_name (init s)))
    = [(SearchList channel_name "id,snippet" 1 "channel",
        fst (youtube (SearchList channel_name "id,snippet" 1 "channel") s))]
    /\ stdout (snd (get_channel_id_by_name youtube channel_name (init s))) = []
    /\ ((exists found,
            fst (get_channel_id_by_name youtube channel_name (init s)) = Ok found)
        \/ fst (get_channel_id_by_name youtube channel_name (init s))
           = Raise (NameError "HttpError")).
Proof.
  intros St youtube s channel_name.
  unfold get_channel_id_by_name, get_channel_id_by_name_in, search_channel,
    bind, lift, execute. simpl.
  destruct (youtube _ s) as [[resp | e] s']; simpl.
  - destruct (let? items := py_get resp "items" (PList []) in py_iter items)
      as [items | e]; simpl.
    + destruct (first_channel items) as [[found |] | e]; simpl;
        repeat split; eauto.
    + repeat split; eauto.
  - repeat split; eauto.
Qed.

(** ** [get_video_ids] *)

Section PageRequests.

Context {St : Type}.
Variable youtube : client St.

Lemma while_next_page_calls (playlist_id : string) :
  forall pages idss t video_ids (w : world St) fuel,
    serves youtube playlist_id (Some t) (remote w) pages ->
    t <> PNone ->
    Forall2 (fun page ids => page_video_ids page = Some ids) pages idss ->
    List.length pages <= fuel ->
    exists w',
      while_next_page youtube fuel playlist_id t video_ids w
      = Some (Ok (video_ids ++ List.concat idss), w')
      /\ calls w'
         = calls w ++ combine (map (playlist_request playlist_id)
                                   (page_tokens (Some t) pages))
                              (map Ok pages).
Proof.
  induction pages as [| page rest IH];
    intros idss t acc w fuel Hserves Ht Hids Hfuel.
  - contradiction.
  - inversion Hids as [| ? ids ? idss' Hpage Hrest]; subst.
    destruct Hserves as (s' & Hreq & Hnext).
    destruct fuel as [| fuel]; [simpl in Hfuel; lia |].
    rewrite while_next_page_step by assumption.
    rewrite (playlist_page_ok _ _ _ _ _ _ _ _ Hreq Hpage).
    destruct rest as [| page' rest'].
    + inversion Hrest; subst. rewrite Hnext, while_next_page_done.
      eexists. split; [simpl; rewrite app_nil_r; reflexivity | reflexivity].
    + destruct Hnext as (t' & Htok & Hserves').
      pose proof (continuation_token_not_none _ _ Htok) as Ht'.
      destruct (IH idss' t' (acc ++ ids)
                   {| remote := s';
                      calls := calls w ++
                        [(playlist_request playlist_id (Some t), Ok page)];
                      stdout := stdout w |} fuel Hserves' Ht' Hrest)
        as (w' & Hrun & Hcalls); [simpl in *; lia |].
      exists w'. rewrite Htok, Hrun. split.
      * simpl. rewrite <- app_assoc. reflexivity.
      * rewrite Hcalls. cbn [calls page_tokens map combine].
        rewrite Htok, <- app_assoc. reflexivity.
Qed.

Lemma while_next_page_endless (playlist_id : string) :
  (forall req s,
      exists page s',
        youtube req s = (Ok page, s')
        /\ page_video_ids page <> None /\ continuation_token page <> None) ->
  forall fuel t video_ids (w : world St),
    t <> PNone ->
    while_next_page youtube fuel playlist_id t video_ids w = None.
Proof.
  intros Hmore. induction fuel as [| fuel IH]; intros t acc w Ht.
  - apply while_next_page_out, Ht.
  - rewrite while_next_page_step by assumption.
    destruct (Hmore (playlist_request playlist_id (Some t)) (remote w))
      as (page & s' & Hreq & Hids & Htok).
    destruct (page_video_ids page) as [ids|] eqn:Eids; [| congruence].
    rewrite (playlist_page_ok _ _ _ _ _ _ _ _ Hreq Eids).
    destruct (continuation_token page) as [t'|] eqn:Et; [| congruence].
    apply IH. eapply continuation_token_not_none, Et.
Qed.

End PageRequests.

(** X5.  Walking a chain of pages, [get_video_ids] asks for the first page
    without [pageToken] and for each later page with exactly the token the
    page before handed on, always for the same playlist and with
    [maxResults] 50; the pages are requested once each, in order. *)
Theorem get_video_ids_requests :
  forall St (youtube : client St) (s : St) (playlist_id : string)
         (pages : list pyval) (fuel : nat),
    serves youtube playlist_id None s pages ->
    Forall (fun page => page_video_ids page <> None) pages ->
    List.length pages <= S fuel ->
    exists video_ids w',
      get_video_ids youtube fuel playlist_id (init s) = Some (Ok video_ids, w')
      /\ map fst (calls w')
         = map (playlist_request playlist_id) (page_tokens None pages)
      /\ map snd (calls w') = map Ok pages.
Proof.
  intros St youtube s playlist_id pages fuel Hserves Hpages Hfuel.
  destruct (pages_have_ids pages Hpages) as [idss Hids].
  assert (Hlen : forall tok ps,
             List.length (map (playlist_request playlist_id) (page_tokens tok ps))
             = List.length (map (@Ok pyval) ps)).
  { intros tok ps. rewrite !length_map. revert tok.
    induction ps as [| p ps IH]; intros tok; simpl; [reflexivity |].
    f_equal. apply IH. }
  destruct pages as [| page rest]; [contradiction |].
  inversion Hids as [| ? ids ? idss' Hpage Hrest]; subst.
  destruct Hserves as (s' & Hreq & Hnext).
  unfold get_video_ids.
  rewrite (playlist_page_ok youtube playlist_id None [] (init s) _ _ _
             Hreq Hpage).
  destruct rest as [| page' rest'].
  - rewrite Hnext, while_next_page_done.
    eexists. eexists. split; [reflexivity |]. split; reflexivity.
  - destruct Hnext as (t' & Htok & Hserves').
    pose proof (continuation_token_not_none _ _ Htok) as Ht'.
    destruct (while_next_page_calls youtube playlist_id _ _ t' ([] ++ ids)
                {| remote := s';
                   calls := calls (init s) ++
                     [(playlist_request playlist_id None, Ok page)];
                   stdout := stdout (init s) |} fuel Hserves' Ht' Hrest)
      as (w' & Hrun & Hcalls); [simpl in *; lia |].
    rewrite Htok, Hrun. eexists. exists w'. split; [reflexivity |].
    destruct (combine_fst_snd _ _ (Hlen (Some t') (page' :: rest')))
      as [Hfst Hsnd].
    rewrite Hcalls, !map_app, Hfst, Hsnd.
    change (page_tokens None (page :: page' :: rest'))
      with (None :: page_tokens (continuation_token page) (page' :: rest')).
    rewrite Htok. split; reflexivity.
Qed.

Lemma get_video_ids_requests_witness :
  exists video_ids w',
    get_video_ids three_pages 2 "PL" (init tt) = Some (Ok video_ids, w')
    /\ map fst (calls w')
       = [PlaylistItemsList "snippet, contentDetails" "PL" 50 None;
          PlaylistItemsList "snippet, contentDetails" "PL" 50 (Some (PStr "A"));
          PlaylistItemsList "snippet, contentDetails" "PL" 50 (Some (PStr "B"))].
Proof.
  destruct (get_video_ids_requests unit three_pages tt "PL"
              [page_of ["v1"; "v2"] (Some "A"); page_of ["v2"; "v3"] (Some "B");
               page_of ["v4"] None] 2)
    as (video_ids & w' & Hrun & Hreqs & _).
  - simpl. repeat (eexists; split; [reflexivity |]). reflexivity.
  - repeat constructor; discriminate.
  - simpl. lia.
  - exists video_ids, w'. split; [exact Hrun | exact Hreqs].
Defined.

(** X6.  Against a service whose every page carries a continuation token,
    [get_video_ids] never returns: no number of loop iterations is enough. *)
Theorem get_video_ids_never_returns :
  forall St (youtube : client St),
    (forall req s,
        exists page s',
          youtube req s = (Ok page, s')
          /\ page_video_ids page <> None /\ continuation_token page <> None) ->
    forall (fuel : nat) (playlist_id : string) (s : St),
      get_video_ids youtube fuel playlist_id (init s) = None.
Proof.
  intros St youtube Hmore fuel playlist_id s. unfold get_video_ids.
  destruct (Hmore (playlist_request playlist_id None) s)
    as (page & s' & Hreq & Hids & Htok).
  destruct (page_video_ids page) as [ids|] eqn:Eids; [| congruence].
  rewrite (playlist_page_ok youtube playlist_id None [] (init s) _ _ _
             Hreq Eids).
  destruct (continuation_token page) as [t'|] eqn:Et; [| congruence].
  apply while_next_page_endless; [exact Hmore |].
  eapply continuation_token_not_none, Et.
Qed.

Lemma get_video_ids_never_returns_witness :
  get_video_ids endless 1000 "PL" (init tt) = None.
Proof.
  apply (get_video_ids_never_returns unit endless).
  intros req s. exists (page_of ["v"] (Some "more")), s.
  split; [reflexivity | split; discriminate].
Defined.

(** X7.  [get_video_ids] defaults nothing either: a first page without
    [items] ends the call with [KeyError] for [items], and an item without
    [videoId] in its [contentDetails] ends it with [KeyError] for [videoId];
    in both cases after the one request and without any list returned. *)
Theorem get_video_ids_unguarded_keys :
  (forall St (youtube : client St) (s s' : St) (playlist_id : string)
          (d : dict) (fuel : nat),
      youtube (playlist_request playlist_id None) s = (Ok (PDict d), s') ->
      dict_lookup "items" d = None ->
      get_video_ids youtube fuel playlist_id (init s)
      = Some (Raise (KeyError "items"),
              {| remote := s';
                 calls := [(playlist_request playlist_id None, Ok (PDict d))];
                 stdout := [] |}))
  /\ (forall St (youtube : client St) (s s' : St) (playlist_id : string)
             (page : pyval) (before after : list pyval) (ids : list pyval)
             (d cd : dict) (fuel : nat),
         youtube (playlist_request playlist_id None) s = (Ok page, s') ->
         response_items page = Some (before ++ PDict d :: after) ->
         all_some (map (fun item => lookup2 item "contentDetails" "videoId")
                       before) = Some ids ->
         dict_lookup "contentDetails" d = Some (PDict cd) ->
         dict_lookup "videoId" cd = None ->
         get_video_ids youtube fuel playlist_id (init s)
         = Some (Raise (KeyError "videoId"),
                 {| remote := s';
                    calls := [(playlist_request playlist_id None, Ok page)];
                    stdout := [] |})).
Proof.
  split.
  - intros St youtube s s' playlist_id d fuel Hreq Hitems.
    unfold get_video_ids, playlist_page.
    erewrite bind_ok by (apply execute_eq; exact Hreq).
    unfold bind, lift. simpl py_getitem. rewrite Hitems. reflexivity.
  - intros St youtube s s' playlist_id page before after ids d cd fuel
           Hreq Hitems Hbefore Hcd Hvid.
    unfold get_video_ids, playlist_page.
    erewrite bind_ok by (apply execute_eq; exact Hreq).
    unfold bind, lift. rewrite (channel_items_of _ _ Hitems).
    assert (Hrows : forall acc,
               append_video_ids (before ++ PDict d :: after) acc
               = Raise (KeyError "videoId")).
    { clear Hitems. revert ids Hbefore.
      induction before as [| item rest IH]; intros ids Hbefore acc; simpl.
      - rewrite Hcd. simpl. rewrite Hvid. reflexivity.
      - simpl in Hbefore.
        destruct (lookup2 item "contentDetails" "videoId") as [v|] eqn:Ev;
          [| discriminate].
        destruct (all_some _) as [ids'|] eqn:Erest; [| discriminate].
        destruct (lookup2_getitem _ _ _ _ Ev) as (g & Hg & Hv).
        rewrite Hg. cbn [rbind]. rewrite Hv. cbn [rbind].
        apply (IH ids'). reflexivity. }
    rewrite Hrows. reflexivity.
Qed.

Lemma get_video_ids_unguarded_keys_witness :
  option_map fst
    (get_video_ids scripted 3 "PL" (init [Ok (PDict [("kind", PStr "x")])]))
  = Some (Raise (KeyError "items"))
  /\ option_map fst
       (get_video_ids scripted 3 "PL"
          (init [Ok (PDict [("items",
                             PList [playlist_item "v1";
                                    PDict [("contentDetails", PDict [])]]);
                            ("nextPageToken", PStr "A")]);
                 Ok (page_of ["v2"] None)]))
     = Some (Raise (KeyError "videoId")).
Proof.
  destruct get_video_ids_unguarded_keys as [Hitems Hvid].
  split.
  - erewrite (Hitems _ scripted); [reflexivity | reflexivity | reflexivity].
  - erewrite (Hvid _ scripted _ _ _ _ [playlist_item "v1"] [] _ _ []);
      [reflexivity | reflexivity | reflexivity | reflexivity | reflexivity
       | reflexivity].
Defined.

(** ** [get_video_details] *)

Lemma schema_columns_NoDup : NoDup schema_columns.
Proof.
  unfold schema_columns.
  repeat (constructor; [simpl; intuition discriminate |]). constructor.
Qed.

Lemma batch_start_in_range (n k : nat) : k < batch_count n -> 50 * k < n.
Proof.
  unfold batch_count. intros Hk.
  pose proof (Nat.Div0.mul_div_le (n + 49) 50) as Hdiv. lia.
Qed.

(** X8.  When every batch is answered with well-formed items and there is
    at least one item, [get_video_details] hands [pd.DataFrame] one record
    per response item, in the order the service returned them, batch after
    batch, the [video_id] of each record being the [id] of its response
    item, not an identifier asked for; the table has exactly the thirteen
    columns of the schema, in order, and one row per response item. *)
Theorem get_video_details_table :
  forall St (youtube : client St) (s : St) (video_ids : list string)
         (resps : list pyval),
    answers youtube s
      (map (fun b => VideosList "snippet,contentDetails,statistics"
                       (String.concat "," b)) (batches video_ids)) resps ->
    forallb videos_response_ok resps = true ->
    List.concat (map items_of resps) <> [] ->
    exists records,
      fst (get_video_details youtube video_ids (init s))
      = Ok (pd_DataFrame records)
      /\ df_columns (pd_DataFrame records) = schema_columns
      /\ List.length (df_rows (pd_DataFrame records))
         = List.length (List.concat (map items_of resps))
      /\ Forall2 (fun video r =>
                    exists id, py_getitem video "id" = Ok id
                               /\ dict_lookup "video_id" r = Some id)
                 (List.concat (map items_of resps)) records.
Proof.
  intros St youtube s video_ids resps Hans Hok Hne.
  destruct (get_video_details_ok youtube s video_ids resps Hans Hok)
    as (w' & Hrun & _).
  exists (map record_of (List.concat (map items_of resps))).
  rewrite Hrun. split; [reflexivity |]. split; [| split].
  - apply pd_DataFrame_columns_uniform.
    + apply schema_columns_NoDup.
    + destruct (List.concat (map items_of resps)); [congruence | discriminate].
    + apply Forall_forall. intros r Hr.
      apply in_map_iff in Hr as (video & <- & _). reflexivity.
  - rewrite pd_DataFrame_rows, length_map. reflexivity.
  - pose proof (response_items_ok resps Hok) as Hall.
    clear Hne Hrun.
    induction (List.concat (map items_of resps)) as [| video rest IH];
      simpl; constructor.
    + simpl in Hall. apply andb_true_iff in Hall as [Hvideo _].
      destruct video as [| | | | | |d]; try discriminate.
      unfold record_of. simpl in *.
      destruct (dict_lookup "id" d) as [id|]; [| discriminate].
      exists id. split; reflexivity.
    + apply IH. simpl in Hall. apply andb_true_iff in Hall. apply Hall.
Qed.

Lemma get_video_details_table_witness :
  exists records,
    fst (get_video_details scripted ["v1"; "gone"; "v9"]
           (init [Ok (PDict [("items", PList [sparse_video_item;
                                              video_item "v1"])])]))
    = Ok (pd_DataFrame records)
    /\ df_columns (pd_DataFrame records) = schema_columns
    /\ List.length (df_rows (pd_DataFrame records)) = 2
    /\ Forall2 (fun video r =>
                  exists id, py_getitem video "id" = Ok id
                             /\ dict_lookup "video_id" r = Some id)
               [sparse_video_item; video_item "v1"] records.
Proof.
  apply (get_video_details_table _ scripted
           [Ok (PDict [("items", PList [sparse_video_item; video_item "v1"])])]
           ["v1"; "gone"; "v9"]
           [PDict [("items", PList [sparse_video_item; video_item "v1"])]]).
  - simpl. eexists. split; [reflexivity | exact I].
  - reflexivity.
  - discriminate.
Defined.

Lemma in_firstn {A} (n : nat) (l : list A) (x : A) :
  In x (firstn n l) -> In x l.
Proof.
  intros H. rewrite <- (firstn_skipn n l). apply in_or_app. left. exact H.
Qed.

Lemma concat_nonempty (sep x : string) (rest : list string) :
  x <> ""%string -> String.concat sep (x :: rest) <> ""%string.
Proof.
  intros Hx. destruct x as [| a x']; [congruence |].
  destruct rest; simpl; discriminate.
Qed.

(** X9.  Every batch of [get_video_details] holds between 1 and 50
    identifiers, there are [ceil(n / 50)] of them, and up to 50 identifiers
    go in a single batch; so whatever the service does, every request the
    function sends is a [videos.list] request for the comma-joined
    identifiers of one batch, at least one and at most 50 of them, and its
    [id] is not the empty string as long as no identifier given is. *)
Theorem get_video_details_batch_sizes :
  forall video_ids : list string,
    (forall b, In b (batches video_ids) -> 1 <= List.length b <= 50)
    /\ List.length (batches video_ids) = (List.length video_ids + 49) / 50
    /\ (0 < List.length video_ids <= 50 -> batches video_ids = [video_ids])
    /\ (forall St (youtube : client St) (s : St) (req : request)
               (r : result pyval),
           In (req, r)
              (calls (snd (get_video_details youtube video_ids (init s)))) ->
           exists b,
             req = VideosList "snippet,contentDetails,statistics"
                              (String.concat "," b)
             /\ In b (batches video_ids)
             /\ 1 <= List.length b <= 50
             /\ ((forall v, In v video_ids -> v <> ""%string) ->
                 String.concat "," b <> ""%string)).
Proof.
  intros video_ids.
  assert (Hsize : forall b, In b (batches video_ids) ->
                            1 <= List.length b <= 50).
  { intros b Hb. unfold batches in Hb.
    apply in_map_iff in Hb as (k & <- & Hk). apply in_seq in Hk.
    pose proof (batch_start_in_range (List.length video_ids) k) as Hstart.
    rewrite batch_length. lia. }
  split; [exact Hsize |]. split; [| split].
  - unfold batches. rewrite length_map, length_seq. reflexivity.
  - intros [Hpos Hle].
    rewrite batches_step by (destruct video_ids; [simpl in Hpos; lia | discriminate]).
    rewrite firstn_all2, skipn_all2 by lia. reflexivity.
  - intros St youtube s req r Hin.
    destruct (get_video_details_requests youtube video_ids s) as [n Hn].
    assert (Hreq : In req (map videos_request (batches video_ids))).
    { apply (in_firstn n). rewrite <- Hn.
      apply in_map_iff. exists (req, r). split; [reflexivity | exact Hin]. }
    apply in_map_iff in Hreq as (b & <- & Hb).
    exists b. split; [reflexivity |]. split; [exact Hb |].
    split; [exact (Hsize b Hb) |].
    intros Hids. pose proof (Hsize b Hb) as Hlen.
    destruct b as [| x rest]; [simpl in Hlen; lia |].
    apply concat_nonempty, Hids.
    rewrite <- (batches_concat video_ids). apply in_concat.
    exists (x :: rest). split; [exact Hb | left; reflexivity].
Qed.

Lemma get_video_details_batch_sizes_witness :
  map (@List.length string) (batches (numbered_ids 101)) = [50; 50; 1]
  /\ batches (numbered_ids 3) = [numbered_ids 3]
  /\ exists b,
      VideosList "snippet,contentDetails,statistics" "vid000,vid001,vid002"
      = VideosList "snippet,contentDetails,statistics" (String.concat "," b)
      /\ In b (batches (numbered_ids 3))
      /\ 1 <= List.length b <= 50
      /\ String.concat "," b <> ""%string.
Proof.
  destruct (get_video_details_batch_sizes (numbered_ids 3))
    as (_ & _ & Hone & Hsent).
  split; [vm_compute; reflexivity |].
  split; [apply Hone; vm_compute; lia |].
  destruct (Hsent _ scripted [Raise (HttpError 500 "backendError")]
              (VideosList "snippet,contentDetails,statistics"
                          "vid000,vid001,vid002")
              (Raise (HttpError 500 "backendError")))
    as (b & Hreq & Hb & Hlen & Hne).
  - vm_compute. left. reflexivity.
  - exists b. repeat split; try assumption; try apply Hlen.
    apply Hne. intros v Hv. vm_compute in Hv.
    intuition (subst; discriminate).
Defined.

Lemma keep_field_not_object (d : dict) (k v : string) (video_info : dict) :
  group_ok d k = false ->
  exists msg, keep_field (PDict d) k v video_info = Raise (TypeError msg).
Proof.
  unfold group_ok, keep_field. simpl.
  destruct (dict_lookup k d) as [[| | | | | |g]|]; try discriminate;
    intros _; simpl; eauto.
Qed.

Ltac raise_at H :=
  match goal with
  | |- context [keep_field (PDict ?d) ?k ?v ?info] =>
      let msg := fresh "msg" in
      let E := fresh "E" in
      destruct (keep_field_not_object d k v info H) as [msg E];
      rewrite E; exists msg; reflexivity
  end.

(** X10.  Only a missing key is defaulted.  For an item with an [id], a
    group that is present but is not an object (a [null], a string, a list)
    makes the record construction raise [TypeError]: the record is built
    exactly when every group the item has is an object. *)
Theorem build_video_info_not_object :
  forall (d : dict) (id : pyval),
    dict_lookup "id" d = Some id ->
    forallb (group_ok d) ["snippet"; "statistics"; "contentDetails"] = false ->
    exists msg, build_video_info (PDict d) = Raise (TypeError msg).
Proof.
  intros d id Hid Hbad. unfold build_video_info. simpl py_getitem.
  rewrite Hid. cbn [rbind stats_to_keep keep_groups keep_fields].
  destruct (group_ok d "snippet") eqn:Hsn; [| raise_at Hsn].
  repeat (rewrite keep_field_ok by assumption; cbn [rbind]).
  destruct (group_ok d "statistics") eqn:Hst; [| raise_at Hst].
  repeat (rewrite keep_field_ok by assumption; cbn [rbind]).
  destruct (group_ok d "contentDetails") eqn:Hcd; [| raise_at Hcd].
  simpl in Hbad. rewrite Hsn, Hst, Hcd in Hbad. discriminate.
Qed.

Lemma build_video_info_not_object_witness :
  exists msg,
    build_video_info
      (PDict [("id", PStr "v1");
              ("snippet", PDict [("title", PStr "t")]);
              ("statistics", PNone)])
    = Raise (TypeError msg).
Proof.
  apply (build_video_info_not_object
           [("id", PStr "v1"); ("snippet", PDict [("title", PStr "t")]);
            ("statistics", PNone)] (PStr "v1")); reflexivity.
Defined.
